(** * make_json.py: the fixture generator of the Jetty demo

    A shallow embedding of [util/make_json.py] and of the part of the
    Python runtime the script runs on (lists, dicts, [range], the [json]
    encoder with its default settings, text files opened for writing), and
    the properties of the two fixture files it generates. *)

From Stdlib Require Import Ascii String DecimalString DecimalPos DecimalZ.
From stdpp Require Import gmap strings list fin_maps sorting.

Set Default Proof Using "Type".
Local Open Scope Z_scope.

(** ** Python values *)

(** The objects the script builds: integers, strings, lists, and dicts
    keyed by strings.  A dict keeps its items in insertion order, which is
    the order the encoder emits them in, so it is an association list. *)
#[warnings="-register-all"]
Inductive pyobj : Type :=
  | PyInt (z : Z)
  | PyStr (s : string)
  | PyList (l : list pyobj)
  | PyDict (d : list (string * pyobj)).

Module Py.

(** [range(n)]: the integers 0, 1, ..., n-1 (empty when n <= 0). *)
Definition range (n : Z) : list Z := seqZ 0 n.

(** [lst.append(x)] *)
Definition list_append (lst : list pyobj) (x : pyobj) : list pyobj :=
  lst ++ [x].

(** [for i in range(n): lst.append(i)], started on the list [lst]. *)
Definition for_range_append (n : Z) (lst : list pyobj) : list pyobj :=
  fold_left (fun acc i => list_append acc (PyInt i)) (range n) lst.

(** [d[k] = v]: the value of an existing key is replaced in place, a new
    key goes to the end. *)
Fixpoint dict_setitem (d : list (string * pyobj)) (k : string) (v : pyobj)
  : list (string * pyobj) :=
  match d with
  | [] => [(k, v)]
  | (k', v') :: d' =>
      if decide (k' = k) then (k, v) :: d' else (k', v') :: dict_setitem d' k v
  end.

(** [d[k]], with [None] for a [KeyError]. *)
Fixpoint dict_getitem (d : list (string * pyobj)) (k : string) : option pyobj :=
  match d with
  | [] => None
  | (k', v') :: d' => if decide (k' = k) then Some v' else dict_getitem d' k
  end.

(** [len(lst)] *)
Definition len (lst : list pyobj) : Z := Z.of_nat (length lst).

(** [lst[i]], with [None] for an [IndexError]; a negative index counts
    from the end. *)
Definition list_getitem (lst : list pyobj) (i : Z) : option pyobj :=
  if decide (0 <= i) then lst !! Z.to_nat i
  else if decide (- len lst <= i) then lst !! Z.to_nat (len lst + i)
  else None.

(** [list(d.keys())] *)
Definition dict_keys (d : list (string * pyobj)) : list string := d.*1.

End Py.

(** ** The [json] encoder, with the defaults [json.dump(obj, fp)] uses

    [ensure_ascii=True], [indent=None], [sort_keys=False] and the
    separators [', '] and [': '].  [json.dump] iterates over the generator
    that [_make_iterencode] of CPython's [json.encoder] builds and writes
    each chunk it yields; the functions below yield the same chunks.  A
    string is a sequence of code points below 256. *)
Module Json.

Definition dquote : ascii := "034"%char.
Definition backslash : ascii := "092"%char.
Definition newline : ascii := "010"%char.

(** One digit of ['{0:04x}'.format(n)]. *)
Definition hex_digit (n : N) : ascii :=
  ascii_of_N (if (n <? 10)%N then 48 + n else 87 + n)%N.

(** [replace(match)] of [py_encode_basestring_ascii]: the escape of one
    character: [ESCAPE_DCT] first, then the printable range [' '..'~']
    unchanged, then a [\uXXXX] escape. *)
Definition escape_char (c : ascii) : string :=
  let n := N_of_ascii c in
  if (n =? 92)%N then String backslash (String backslash "")
  else if (n =? 34)%N then String backslash (String dquote "")
  else if (n =? 8)%N then String backslash "b"
  else if (n =? 12)%N then String backslash "f"
  else if (n =? 10)%N then String backslash "n"
  else if (n =? 13)%N then String backslash "r"
  else if (n =? 9)%N then String backslash "t"
  else if ((32 <=? n) && (n <=? 126))%N then String c ""
  else String backslash
         ("u00" +:+ String (hex_digit (n / 16)) (String (hex_digit (n mod 16)) "")).

Fixpoint escape (s : string) : string :=
  match s with
  | EmptyString => EmptyString
  | String c s' => escape_char c +:+ escape s'
  end.

(** [_encoder = encode_basestring_ascii] *)
Definition encoder (s : string) : string :=
  String dquote (escape s +:+ String dquote "").

(** [_intstr = int.__repr__], on the integers it prints: those of at most
    4300 digits ([repr_allowed] below); beyond that CPython raises a
    [ValueError].  The integers of the script have at most five digits. *)
Definition intstr (z : Z) : string := NilZero.string_of_int (Z.to_int z).

Definition item_separator : string := ", ".
Definition key_separator : string := ": ".

Section Iterencode.
(** The generator [_iterencode] the two helpers below call back into. *)
Variable _iterencode : pyobj -> list string.

(** The loop of [_iterencode_list] over a non-empty list; [first] is
    the generator's flag, [buf] is ['['] before the first item and the
    separator afterwards; a string or an integer is yielded glued to
    [buf], a container follows [buf] as chunks of its own. *)
Fixpoint iterencode_list_items (first : bool) (lst : list pyobj) : list string :=
  match lst with
  | [] => ["]"]
  | value :: rest =>
      let buf := if first then "[" else item_separator in
      match value with
      | PyStr s => [buf +:+ encoder s]
      | PyInt z => [buf +:+ intstr z]
      | _ => buf :: _iterencode value
      end ++ iterencode_list_items false rest
  end.

Definition iterencode_list (lst : list pyobj) : list string :=
  match lst with
  | [] => ["[]"]
  | _ => iterencode_list_items true lst
  end.

(** The loop of [_iterencode_dict] over the items of a non-empty dict,
    after the opening brace. *)
Fixpoint iterencode_dict_items (first : bool) (items : list (string * pyobj))
  : list string :=
  match items with
  | [] => ["}"]
  | (key, value) :: rest =>
      (if first then [] else [item_separator])
        ++ [encoder key; key_separator]
        ++ _iterencode value
        ++ iterencode_dict_items false rest
  end.

Definition iterencode_dict (dct : list (string * pyobj)) : list string :=
  match dct with
  | [] => ["{}"]
  | _ => "{" :: iterencode_dict_items true dct
  end.
End Iterencode.

(** [JSONEncoder.iterencode(o)]: the chunks of the encoding, in order. *)
Fixpoint iterencode (o : pyobj) : list string :=
  match o with
  | PyStr s => [encoder s]
  | PyInt z => [intstr z]
  | PyList lst => iterencode_list iterencode lst
  | PyDict dct => iterencode_dict iterencode dct
  end.

(** [''.join(chunks)] *)
Definition join (chunks : list string) : string := foldr String.app "" chunks.

(** [json.dumps(o)]: the text [json.dump] writes, in one piece. *)
Definition dumps (o : pyobj) : string := join (iterencode o).

End Json.

(** ** The data the script builds (lines 20-24 and 28-32) *)

Definition snumbers : list pyobj := Py.for_range_append 500 [].
Definition sdata : list (string * pyobj) :=
  Py.dict_setitem [] "numbers" (PyList snumbers).

Definition lnumbers : list pyobj := Py.for_range_append 100000 [].
Definition ldata : list (string * pyobj) :=
  Py.dict_setitem [] "numbers" (PyList lnumbers).

(** ** Files and uncaught errors

    The file system is a finite map from paths to contents.  Every file
    operation of a run is recorded in a trace, in the order it happens,
    with its outcome.  Which operations fail is the environment's choice:
    [fault k] tells whether the [k]-th file operation of the run raises
    [OSError] (permission denied, disk full, invalid path).  A failed
    operation leaves every file as it was.  The content of a file is what
    has been written to its file object: buffering is not modelled, and
    nothing else touches the files during a run. *)

Inductive fileop : Type :=
  | OpOpen
  | OpWrite (chunk : string)
  | OpClose.

Record event : Type := Ev { ev_op : fileop; ev_path : string; ev_ok : bool }.

Record world : Type := World { files : gmap string string; trace : list event }.

Inductive exn : Type := OSError (op : fileop) (path : string).

(** A computation changes the world and returns a value or raises. *)
Definition IO (A : Type) : Type := world -> world * (exn + A).

Definition ret {A} (a : A) : IO A := fun w => (w, inr a).

Definition bind {A B} (m : IO A) (k : A -> IO B) : IO B :=
  fun w => match m w with
           | (w', inr a) => k a w'
           | (w', inl e) => (w', inl e)
           end.

Notation "x <- m ;; k" := (bind m (fun x => k))
  (at level 100, m at next level, right associativity).
Notation "m ;; k" := (bind m (fun _ => k))
  (at level 100, right associativity).

Section Run.
Variable fault : nat -> bool.

(** One file operation: it fails when the environment says so, and has
    its effect on the files otherwise. *)
Definition fileop_do (op : fileop) (path : string)
    (effect : gmap string string -> gmap string string) : IO unit :=
  fun w =>
    if fault (length (trace w))
    then (World (files w) (trace w ++ [Ev op path false]), inl (OSError op path))
    else (World (effect (files w)) (trace w ++ [Ev op path true]), inr tt).

(** [open(path, 'w')]: the file is created, or truncated when it exists.
    The file object is known by its path. *)
Definition open_w (path : string) : IO string :=
  fileop_do OpOpen path (insert path "");; ret path.

(** [fp.write(s)]: [s] goes to the end of the file. *)
Definition fp_write (fp : string) (s : string) : IO unit :=
  fileop_do (OpWrite s) fp (alter (fun old => old +:+ s) fp).

(** [fp.close()] *)
Definition fp_close (fp : string) : IO unit :=
  fileop_do OpClose fp id.

(** [with open(path, 'w') as outfile: body]: the file is closed when the
    body is left, also when it is left by an exception, which then
    propagates (replaced by the exception of the close when that fails
    as well). *)
Definition with_open {A} (path : string) (body : string -> IO A) : IO A :=
  outfile <- open_w path;;
  fun w => match body outfile w with
           | (w', inr a) => (fp_close outfile;; ret a) w'
           | (w', inl e) =>
               match fp_close outfile w' with
               | (w'', inr _) => (w'', inl e)
               | (w'', inl e') => (w'', inl e')
               end
           end.

(** [for chunk in iterable: fp.write(chunk)] *)
Fixpoint write_chunks (fp : string) (chunks : list string) : IO unit :=
  match chunks with
  | [] => ret tt
  | chunk :: rest => fp_write fp chunk;; write_chunks fp rest
  end.

(** [json.dump(obj, fp)] *)
Definition json_dump (obj : pyobj) (fp : string) : IO unit :=
  write_chunks fp (Json.iterencode obj).

(** The script, from top to bottom (lines 25-26 and 33-34; the lists and
    dicts of the lines before them are the constants above). *)
Definition make_json : IO unit :=
  with_open "small_file.json" (fun outfile => json_dump (PyDict sdata) outfile);;
  with_open "large_file.json" (fun outfile => json_dump (PyDict ldata) outfile).

(** A run of the script on the files [fs]. *)
Definition run (fs : gmap string string) : world * (exn + unit) :=
  make_json (World fs []).

End Run.

(** The exit status of the interpreter: 0 when the script ran to its end,
    1 when an exception reached the top level. *)
Definition exit_status (r : exn + unit) : Z :=
  match r with
  | inr _ => 0
  | inl _ => 1
  end.

(** ** What the specification calls things *)

Module Spec.

(** A fixture document of [count] numbers, in the words of the data
    model: a mapping with the single field [numbers], whose value is the
    sequence of the integers from 0, incrementing by 1, of length [count]
    (so in ascending order). *)
Definition fixture_document (count : Z) (doc : list (string * pyobj)) : Prop :=
  Py.dict_keys doc = ["numbers"] ∧
  ∃ numbers : list Z,
    Py.dict_getitem doc "numbers" = Some (PyList (PyInt <$> numbers)) ∧
    Z.of_nat (length numbers) = count ∧
    (∀ i : Z, 0 <= i < count → numbers !! Z.to_nat i = Some i) ∧
    StronglySorted Z.lt numbers.

(** [sep.join(items)] *)
Fixpoint sep_join (sep : string) (items : list string) : string :=
  match items with
  | [] => ""
  | [x] => x
  | x :: rest => x +:+ sep +:+ sep_join sep rest
  end.

(** The output format of the interface section: the one-line text
    [{"numbers": [0, 1, 2, ..., N-1]}], a space after each comma and
    after the colon, nothing after the closing brace. *)
Definition compact_text (numbers : list Z) : string :=
  "{" +:+ String Json.dquote ("numbers" +:+ String Json.dquote
    (": [" +:+ sep_join ", " (Json.intstr <$> numbers) +:+ "]}")).



End Spec.

(** ** Runs and their traces *)

Definition small_file : string := "small_file.json".
Definition large_file : string := "large_file.json".

Definition ev_on (path : string) (e : event) : Prop := ev_path e = path.
Definition ev_succeeded (e : event) : Prop := ev_ok e = true.

(** Some operation on [path] failed. *)
Definition failed_on (path : string) (tr : list event) : bool :=
  existsb (fun e => bool_decide (ev_path e = path) && negb (ev_ok e)) tr.

Definition ok_write (path chunk : string) : event := Ev (OpWrite chunk) path true.

(** The trace of a [with open(path, 'w')] block around [json.dump(obj, _)]
    in which nothing fails: the file is opened, every chunk of the encoding
    is written in order, the file is closed. *)
Definition session_trace (path : string) (obj : pyobj) : list event :=
  Ev OpOpen path true :: (ok_write path <$> Json.iterencode obj) ++ [Ev OpClose path true].

(** The trace of a block that is left by an exception: operations that
    succeeded, the one that failed, and nothing after it but the close of
    the file when the failure came after the open. *)
Definition aborted (path : string) (evs : list event) : Prop :=
  ∃ pre e post,
    evs = pre ++ e :: post ∧ Forall ev_succeeded pre ∧ ev_ok e = false ∧
    (post = [] ∨ ∃ b, post = [Ev OpClose path b]).

(** The number of file operations of a block in which nothing fails. *)
Definition session_ops (obj : pyobj) : nat := S (S (length (Json.iterencode obj))).

Definition make_json_ops : nat := (session_ops (PyDict sdata) + session_ops (PyDict ldata))%nat.

(** The environment lets every file operation of the run succeed. *)
Definition no_fault (fault : nat -> bool) : Prop :=
  ∀ k : nat, (k < make_json_ops)%nat → fault k = false.

(** The recorded outcomes are the ones the environment chose. *)
Definition faithful (fault : nat -> bool) (tr : list event) : Prop :=
  ∀ (i : nat) (e : event), tr !! i = Some e → ev_ok e = negb (fault i).

(** A computation that keeps the record faithful. *)
Definition keeps_faithful (fault : nat -> bool) {A} (m : IO A) : Prop :=
  ∀ w, faithful fault (trace w) → faithful fault (trace (m w).1).

(** The three ways a run on the files [fs] can end. *)
Inductive outcome (fs : gmap string string) : world -> exn + unit -> Prop :=
  | small_aborted w e :
      (∃ b tl, trace w = Ev OpOpen small_file b :: tl) →
      Forall (ev_on small_file) (trace w) →
      aborted small_file (trace w) →
      files w !! large_file = fs !! large_file →
      outcome fs w (inl e)
  | large_aborted w e evs :
      trace w = session_trace small_file (PyDict sdata) ++ evs →
      (∃ b tl, evs = Ev OpOpen large_file b :: tl) →
      Forall (ev_on large_file) evs →
      aborted large_file evs →
      files w !! small_file = Some (Json.dumps (PyDict sdata)) →
      outcome fs w (inl e)
  | completed w :
      trace w = session_trace small_file (PyDict sdata)
                  ++ session_trace large_file (PyDict ldata) →
      files w !! small_file = Some (Json.dumps (PyDict sdata)) →
      files w !! large_file = Some (Json.dumps (PyDict ldata)) →
      outcome fs w (inr tt).

(** ** The shape of a [with] block in a trace *)

(** The events of one [with open(path, 'w')] block around
    [json.dump(obj, _)], [cs] being the chunks of [obj], with the number of
    chunks that reached the file ([None] when the file was not opened):
    the open failed and nothing followed; or the open succeeded, every
    chunk was written in order and the file was closed; or the open
    succeeded, the first [k] chunks were written in order, the write of
    the next one failed and the file was closed. *)
Inductive block (path : string) (cs : list string) : list event -> option nat -> Prop :=
  | block_not_opened :
      block path cs [Ev OpOpen path false] None
  | block_complete b :
      block path cs
        (Ev OpOpen path true :: (ok_write path <$> cs) ++ [Ev OpClose path b])
        (Some (length cs))
  | block_cut k c b :
      cs !! k = Some c →
      block path cs
        (Ev OpOpen path true :: (ok_write path <$> take k cs)
           ++ [Ev (OpWrite c) path false; Ev OpClose path b])
        (Some k).

(** What a file holds after a block that wrote [n] chunks to it. *)
Definition content_after (before : option string) (cs : list string) (n : option nat)
  : option string :=
  match n with
  | None => before
  | Some k => Some (Json.join (take k cs))
  end.

(** The operations of a trace that failed, in order. *)
Definition failures (tr : list event) : list event :=
  List.filter (fun e => negb (ev_ok e)) tr.

(** The result a trace stands for: the exception of the last operation
    that failed, or a normal end when none did. *)
Definition verdict (tr : list event) : exn + unit :=
  match last (failures tr) with
  | Some e => inl (OSError (ev_op e) (ev_path e))
  | None => inr tt
  end.

Fixpoint count_events (f : event -> bool) (tr : list event) : nat :=
  match tr with
  | [] => 0%nat
  | e :: tr' => ((if f e then 1 else 0) + count_events f tr')%nat
  end.

(** A successful open of [path]. *)
Definition is_open_ok (path : string) (e : event) : bool :=
  match ev_op e with
  | OpOpen => ev_ok e && bool_decide (ev_path e = path)
  | _ => false
  end.

(** A close of [path], successful or not: the file object is closed
    either way. *)
Definition is_close (path : string) (e : event) : bool :=
  match ev_op e with
  | OpClose => bool_decide (ev_path e = path)
  | _ => false
  end.

(** A write to [path], successful or not. *)
Definition is_write (path : string) (e : event) : bool :=
  match ev_op e with
  | OpWrite _ => bool_decide (ev_path e = path)
  | _ => false
  end.

(** The printable ASCII characters, [' '] to ['~']. *)
Definition printable (c : ascii) : bool :=
  ((32 <=? N_of_ascii c) && (N_of_ascii c <=? 126))%N.

(** The characters of a decimal integer: the digits and the minus sign. *)
Definition is_number_char (c : ascii) : bool :=
  ((N_of_ascii c =? 45) || ((48 <=? N_of_ascii c) && (N_of_ascii c <=? 57)))%N.

(** [all(P(c) for c in s)] *)
Fixpoint all_chars (P : ascii -> bool) (s : string) : bool :=
  match s with
  | EmptyString => true
  | String c s' => P c && all_chars P s'
  end.

(** The document [{'numbers': numbers}], built as the script builds it. *)
Definition numbers_document (numbers : list Z) : pyobj :=
  PyDict (Py.dict_setitem [] "numbers" (PyList (PyInt <$> numbers))).

(** The integers [int.__repr__] prints: CPython refuses, with a
    [ValueError], to print an integer of more than 4300 digits
    ([sys.get_int_max_str_digits()]).  [Json.intstr] is the printer on the
    integers within this limit; what is stated of the encoder for integers
    other than the script's is stated within it. *)
Definition int_max_str_digits : Z := 4300.

Definition repr_allowed (z : Z) : bool := Z.abs z <? 10 ^ int_max_str_digits.

(** ** Reading a file back

    A reader of the documents of the output format, for the scenarios that
    read a file back and look at [json.numbers]: an object with the one key
    [numbers] whose value is an array of integers, with the white space
    JSON allows between the tokens.  It takes nothing from the encoder:
    the text is scanned character by character and the digits are read
    with the decimal reader of the standard library.  Anything else (another
    key, a number with a fraction, an exponent or a leading zero, text
    after the closing brace) is refused.  It is used on texts whose
    integers have at most 4300 digits, which [json.load] reads as well. *)
Module Reader.

Definition dquote : ascii := "034"%char.

Definition is_space (c : ascii) : bool :=
  ((N_of_ascii c =? 32) || (N_of_ascii c =? 10)
   || (N_of_ascii c =? 13) || (N_of_ascii c =? 9))%N.

Fixpoint skip_space (s : string) : string :=
  match s with
  | String c s' => if is_space c then skip_space s' else s
  | EmptyString => EmptyString
  end.

(** [s] without its prefix [p], when it starts with [p]. *)
Fixpoint expect (p s : string) : option string :=
  match p with
  | EmptyString => Some s
  | String c p' =>
      match s with
      | String c' s' => if Ascii.eqb c c' then expect p' s' else None
      | EmptyString => None
      end
  end.

(** The longest prefix of [s] made of digits and minus signs, and the
    rest of [s]. *)
Fixpoint span_number (s : string) : string * string :=
  match s with
  | String c s' =>
      if is_number_char c
      then (String c (span_number s').1, (span_number s').2)
      else (EmptyString, s)
  | EmptyString => (EmptyString, EmptyString)
  end.

(** JSON has no integer with a leading zero but [0] and [-0]. *)
Definition no_leading_zero (a : string) : bool :=
  match a with
  | String c (String _ _) =>
      if Ascii.eqb c "0" then false
      else match a with
           | String _ (String d (String _ _)) =>
               negb (Ascii.eqb c "-" && Ascii.eqb d "0")
           | _ => true
           end
  | _ => true
  end.

Definition read_int (s : string) : option (Z * string) :=
  if no_leading_zero (span_number s).1 then
    match NilZero.int_of_string (span_number s).1 with
    | Some d => Some (Z.of_int d, (span_number s).2)
    | None => None
    end
  else None.

(** The items of a non-empty array, up to its closing bracket; every item
    takes at least one character, so the length of the text is fuel
    enough. *)
Fixpoint read_items (fuel : nat) (s : string) : option (list Z * string) :=
  match fuel with
  | O => None
  | S fuel' =>
      match read_int s with
      | None => None
      | Some (z, r) =>
          match skip_space r with
          | String c r' =>
              if Ascii.eqb c "," then
                match read_items fuel' (skip_space r') with
                | Some (zs, rest) => Some (z :: zs, rest)
                | None => None
                end
              else if Ascii.eqb c "]" then Some ([z], r')
              else None
          | EmptyString => None
          end
      end
  end.

Definition read_array (s : string) : option (list Z * string) :=
  match expect "[" s with
  | None => None
  | Some s1 =>
      match skip_space s1 with
      | String c r =>
          if Ascii.eqb c "]" then Some ([], r)
          else read_items (String.length s1) (skip_space s1)
      | EmptyString => None
      end
  end.

(** [json.load(fp)['numbers']] for a text of the format. *)
Definition read_numbers (s : string) : option (list Z) :=
  match expect "{" (skip_space s) with
  | None => None
  | Some s1 =>
      match expect (String dquote ("numbers" +:+ String dquote "")) (skip_space s1) with
      | None => None
      | Some s2 =>
          match expect ":" (skip_space s2) with
          | None => None
          | Some s3 =>
              match read_array (skip_space s3) with
              | None => None
              | Some (zs, s4) =>
                  match expect "}" (skip_space s4) with
                  | None => None
                  | Some s5 =>
                      match skip_space s5 with
                      | EmptyString => Some zs
                      | String _ _ => None
                      end
                  end
              end
          end
      end
  end.

End Reader.

(** ** The lists and the documents *)

Section Data.

Lemma fold_append_fmap (l : list Z) (acc : list pyobj) :
  fold_left (fun acc i => Py.list_append acc (PyInt i)) l acc = acc ++ (PyInt <$> l).
Proof.
  revert acc. induction l as [|z l IH]; intros acc; simpl.
  - by rewrite app_nil_r.
  - rewrite IH. unfold Py.list_append. by rewrite <- app_assoc.
Qed.

Lemma for_range_append_nil (n : Z) :
  Py.for_range_append n [] = PyInt <$> seqZ 0 n.
Proof. unfold Py.for_range_append, Py.range. by rewrite fold_append_fmap. Qed.

Lemma snumbers_eq : snumbers = PyInt <$> seqZ 0 500.
Proof. apply for_range_append_nil. Qed.

Lemma lnumbers_eq : lnumbers = PyInt <$> seqZ 0 100000.
Proof. apply for_range_append_nil. Qed.

Lemma sdata_eq : sdata = [("numbers", PyList snumbers)].
Proof. reflexivity. Qed.

Lemma ldata_eq : ldata = [("numbers", PyList lnumbers)].
Proof. reflexivity. Qed.

Lemma len_range (n : Z) : 0 <= n → Py.len (PyInt <$> seqZ 0 n) = n.
Proof. intros Hn. unfold Py.len. rewrite length_fmap, length_seqZ. lia. Qed.

Lemma getitem_range (n i : Z) :
  0 <= i < n → Py.list_getitem (PyInt <$> seqZ 0 n) i = Some (PyInt i).
Proof.
  intros Hi. unfold Py.list_getitem. rewrite decide_True by lia.
  rewrite list_lookup_fmap, lookup_seqZ_lt by lia. simpl. f_equal. f_equal. lia.
Qed.

Lemma getitem_range_last (n : Z) :
  0 < n → Py.list_getitem (PyInt <$> seqZ 0 n) (-1) = Some (PyInt (n - 1)).
Proof.
  intros Hn. unfold Py.list_getitem. rewrite decide_False by lia.
  rewrite len_range by lia. rewrite decide_True by lia.
  rewrite list_lookup_fmap, lookup_seqZ_lt by lia. simpl. f_equal. f_equal. lia.
Qed.

Lemma seqZ_sorted (m n : Z) : StronglySorted Z.lt (seqZ m n).
Proof.
  destruct (decide (0 <= n)) as [Hn|Hn]; [|rewrite seqZ_nil by lia; constructor].
  revert m. pattern n. apply natlike_ind; [| |done].
  - intros m. rewrite seqZ_nil by lia. constructor.
  - intros k Hk IH m. rewrite seqZ_cons by lia.
    replace (Z.pred (Z.succ k)) with k by lia.
    constructor; [apply IH|].
    apply Forall_seqZ. lia.
Qed.

Lemma fixture_document_range (n : Z) :
  0 <= n →
  Spec.fixture_document n [("numbers", PyList (PyInt <$> seqZ 0 n))].
Proof.
  intros Hn. split; [done|]. exists (seqZ 0 n). split; [done|].
  split; [rewrite length_seqZ; lia|]. split; [|apply seqZ_sorted].
  intros i Hi. rewrite lookup_seqZ_lt by lia. f_equal. lia.
Qed.

End Data.

(** ** The encoding of a fixture document *)

Section Encoding.

Lemma string_app_cons (x : ascii) (a b : string) :
  String x a +:+ b = String x (a +:+ b).
Proof. reflexivity. Qed.

Lemma string_app_nil_l (b : string) : "" +:+ b = b.
Proof. reflexivity. Qed.

Lemma string_app_assoc (a b c : string) : (a +:+ b) +:+ c = a +:+ (b +:+ c).
Proof.
  induction a as [|x a IH]; [done|]. by rewrite !string_app_cons, IH.
Qed.

Lemma string_app_nil_r (a : string) : a +:+ "" = a.
Proof. induction a as [|x a IH]; [done|]. by rewrite string_app_cons, IH. Qed.

Lemma join_app (l1 l2 : list string) :
  Json.join (l1 ++ l2) = Json.join l1 +:+ Json.join l2.
Proof.
  induction l1 as [|x l1 IH]; simpl; [done|].
  unfold Json.join in *. simpl. by rewrite IH, string_app_assoc.
Qed.


(** The chunks of a list of integers, joined. *)
Lemma join_list_items rec (first : bool) (zs : list Z) :
  Json.join (Json.iterencode_list_items rec first (PyInt <$> zs)) =
  match zs with
  | [] => "]"
  | _ => (if first then "[" else ", ")
           +:+ Spec.sep_join ", " (Json.intstr <$> zs) +:+ "]"
  end.
Proof.
  revert first. induction zs as [|z zs IH]; intros first; [done|].
  change (Json.iterencode_list_items rec first (PyInt <$> z :: zs))
    with ([(if first then "[" else Json.item_separator) +:+ Json.intstr z]
            ++ Json.iterencode_list_items rec false (PyInt <$> zs)).
  rewrite join_app, IH. unfold Json.join at 1. simpl foldr.
  rewrite string_app_nil_r, string_app_assoc.
  destruct zs as [|z' zs]; [done|].
  change (Json.intstr <$> z :: z' :: zs)
    with (Json.intstr z :: (Json.intstr <$> z' :: zs)).
  change (Json.intstr <$> z' :: zs) with (Json.intstr z' :: (Json.intstr <$> zs)).
  cbn [Spec.sep_join]. by rewrite !string_app_assoc.
Qed.

(** [json.dumps] of a document with the one field [numbers] is the text
    of the output format. *)
Lemma dumps_fixture (zs : list Z) :
  Json.dumps (PyDict [("numbers", PyList (PyInt <$> zs))]) = Spec.compact_text zs.
Proof.
  destruct zs as [|z zs]; [done|].
  unfold Json.dumps.
  change (Json.iterencode (PyDict [("numbers", PyList (PyInt <$> z :: zs))]))
    with (["{"; Json.encoder "numbers"; Json.key_separator]
            ++ Json.iterencode_list_items Json.iterencode true (PyInt <$> z :: zs)
            ++ ["}"]).
  rewrite !join_app, join_list_items.
  unfold Spec.compact_text. generalize (Spec.sep_join ", " (Json.intstr <$> z :: zs)).
  intros s. unfold Json.join. simpl foldr.
  by rewrite !string_app_cons, !string_app_nil_l, !string_app_assoc.
Qed.





(** The encoder on small inputs: the chunks of a document of three
    numbers, and a text with escapes, a negative number and nesting. *)
Example iterencode_three :
  Json.iterencode (PyDict [("numbers", PyList [PyInt 0; PyInt 1; PyInt 2])])
  = ["{"; Json.encoder "numbers"; ": "; "[0"; ", 1"; ", 2"; "]"; "}"].
Proof. reflexivity. Qed.

Example dumps_nested :
  Json.dumps (PyDict [("a" +:+ String Json.newline "", PyList [PyInt (-12); PyStr "x"; PyList []]);
                      ("b", PyDict [])])
  = "{" +:+ Json.encoder ("a" +:+ String Json.newline "") +:+ ": [-12, "
      +:+ Json.encoder "x" +:+ ", []], " +:+ Json.encoder "b" +:+ ": {}}"
  ∧ Json.encoder ("a" +:+ String Json.newline "")
    = String Json.dquote ("a\n" +:+ String Json.dquote "").
Proof. split; reflexivity. Qed.

(** The number of chunks of a document with the one field [numbers]. *)
Lemma length_list_items rec (first : bool) (zs : list Z) :
  length (Json.iterencode_list_items rec first (PyInt <$> zs)) = S (length zs).
Proof.
  revert first. induction zs as [|z zs IH]; intros first; [done|].
  change (Json.iterencode_list_items rec first (PyInt <$> z :: zs))
    with ([(if first then "[" else Json.item_separator) +:+ Json.intstr z]
            ++ Json.iterencode_list_items rec false (PyInt <$> zs)).
  rewrite length_app, IH. simpl. lia.
Qed.

Lemma session_ops_fixture (zs : list Z) :
  zs ≠ [] →
  session_ops (PyDict [("numbers", PyList (PyInt <$> zs))]) = (length zs + 7)%nat.
Proof.
  destruct zs as [|z zs]; [done|]. intros _. unfold session_ops.
  change (Json.iterencode (PyDict [("numbers", PyList (PyInt <$> z :: zs))]))
    with (["{"; Json.encoder "numbers"; Json.key_separator]
            ++ Json.iterencode_list_items Json.iterencode true (PyInt <$> z :: zs)
            ++ ["}"]).
  rewrite !length_app, length_list_items. simpl. lia.
Qed.

(** A run in which nothing fails performs 507 operations on the small file
    and 100007 on the large one. *)
Lemma make_json_ops_eq : Z.of_nat make_json_ops = 100514.
Proof.
  unfold make_json_ops. rewrite sdata_eq, ldata_eq, snumbers_eq, lnumbers_eq.
  assert (H5 : seqZ 0 500 ≠ []) by (rewrite seqZ_cons by lia; discriminate).
  assert (H1 : seqZ 0 100000 ≠ []) by (rewrite seqZ_cons by lia; discriminate).
  rewrite (session_ops_fixture _ H5), (session_ops_fixture _ H1), !length_seqZ.
  lia.
Qed.

End Encoding.

(** ** One [with] block *)

Section Session.
Variable fault : nat -> bool.

Lemma write_chunks_spec (fp : string) (cs : list string) (w : world) :
  ∃ evs,
    trace (write_chunks fault fp cs w).1 = trace w ++ evs ∧
    Forall (ev_on fp) evs ∧
    (∀ q, q ≠ fp → files (write_chunks fault fp cs w).1 !! q = files w !! q) ∧
    match (write_chunks fault fp cs w).2 with
    | inr _ =>
        evs = ok_write fp <$> cs ∧
        files (write_chunks fault fp cs w).1 !! fp
          = (fun old => old +:+ Json.join cs) <$> files w !! fp
    | inl _ =>
        ∃ pre e, evs = pre ++ [e] ∧ Forall ev_succeeded pre ∧ ev_ok e = false
    end.
Proof.
  revert w. induction cs as [|c cs IH]; intros w.
  - exists []. simpl. rewrite app_nil_r. split_and!; try done.
    destruct (files w !! fp); simpl; [|done]. by rewrite string_app_nil_r.
  - cbn [write_chunks]. unfold bind, fp_write, fileop_do.
    destruct (fault (length (trace w))) eqn:Hf.
    + exists [Ev (OpWrite c) fp false]. simpl.
      split_and!; [done|by repeat constructor|done|by exists [], (Ev (OpWrite c) fp false)].
    + set (w1 := World _ _).
      destruct (IH w1) as (evs & Ht & Hp & Hq & Hr).
      exists (ok_write fp c :: evs). split_and!.
      * rewrite Ht. subst w1. simpl. by rewrite <- app_assoc.
      * by constructor.
      * intros q Hne. rewrite Hq by done. subst w1. simpl.
        by rewrite lookup_alter_ne.
      * destruct ((write_chunks fault fp cs w1).2) as [x|u].
        -- destruct Hr as (pre & e & -> & Hpre & He).
           exists (ok_write fp c :: pre), e. split_and!; [done|by constructor|done].
        -- destruct Hr as [-> Hfs]. split; [done|]. rewrite Hfs. subst w1. simpl.
           rewrite lookup_alter_eq. destruct (files w !! fp); simpl; [|done].
           f_equal. unfold Json.join. simpl. by rewrite string_app_assoc.
Qed.

Lemma session_spec (p : string) (obj : pyobj) (w : world) :
  let out := with_open fault p (fun outfile => json_dump fault obj outfile) w in
  ∃ evs,
    trace out.1 = trace w ++ evs ∧
    (∃ b tl, evs = Ev OpOpen p b :: tl) ∧
    Forall (ev_on p) evs ∧
    (∀ q, q ≠ p → files out.1 !! q = files w !! q) ∧
    match out.2 with
    | inr _ => evs = session_trace p obj ∧ files out.1 !! p = Some (Json.dumps obj)
    | inl _ => aborted p evs
    end.
Proof.
  intros out. subst out.
  unfold with_open, open_w, json_dump, bind, fp_close, fileop_do, ret.
  destruct (fault (length (trace w))) eqn:Hf.
  { exists [Ev OpOpen p false]. simpl. split_and!; eauto.
    - by repeat constructor.
    - exists [], (Ev OpOpen p false), []. split_and!; eauto. }
  set (w1 := World _ _).
  destruct (write_chunks_spec p (Json.iterencode obj) w1) as (evs & Ht & Hp & Hq & Hr).
  destruct (write_chunks fault p (Json.iterencode obj) w1) as [w2 r2].
  simpl in Ht, Hq, Hr. subst w1. simpl in Ht, Hq.
  destruct r2 as [x|[]].
  - destruct Hr as (pre & e & -> & Hpre & He).
    set (b := negb (fault (length (trace w2)))).
    exists (Ev OpOpen p true :: (pre ++ [e]) ++ [Ev OpClose p b]).
    assert (Hab : aborted p (Ev OpOpen p true :: (pre ++ [e]) ++ [Ev OpClose p b])).
    { exists (Ev OpOpen p true :: pre), e, [Ev OpClose p b].
      split_and!; [by rewrite <- app_assoc|by constructor|done|eauto]. }
    subst b. destruct (fault (length (trace w2))); simpl;
      (split_and!;
       [ rewrite Ht; by rewrite <- !app_assoc
       | eauto
       | constructor; [done|]; apply Forall_app; split; [done|by repeat constructor]
       | intros q Hne; rewrite Hq by done; by rewrite lookup_insert_ne
       | done ]).
  - destruct Hr as [-> Hfs].
    set (b := negb (fault (length (trace w2)))).
    exists (Ev OpOpen p true :: (ok_write p <$> Json.iterencode obj) ++ [Ev OpClose p b]).
    assert (Hfs' : files w2 !! p = Some (Json.dumps obj)).
    { rewrite Hfs, lookup_insert_eq. simpl. by rewrite string_app_nil_l. }
    assert (Hsucc : Forall ev_succeeded
                      (Ev OpOpen p true :: (ok_write p <$> Json.iterencode obj))).
    { constructor; [done|]. apply Forall_fmap. by apply Forall_true. }
    subst b. destruct (fault (length (trace w2))); simpl;
      (split; [rewrite Ht; by rewrite <- !app_assoc|];
       split; [eauto|];
       split; [constructor; [done|]; apply Forall_app; split;
               [done|by repeat constructor]|];
       split; [intros q Hne; rewrite Hq by done; by rewrite lookup_insert_ne|]).
    + exists (Ev OpOpen p true :: (ok_write p <$> Json.iterencode obj)),
        (Ev OpClose p false), []. split_and!; [done|done|done|by left].
    + done.
Qed.

(** When the environment lets the operations of the block succeed, no
    exception leaves it. *)
Lemma write_chunks_no_fault (fp : string) (cs : list string) (w : world) :
  (∀ k, (length (trace w) <= k < length (trace w) + length cs)%nat → fault k = false) →
  (write_chunks fault fp cs w).2 = inr tt.
Proof.
  revert w. induction cs as [|c cs IH]; intros w H; [done|].
  cbn [write_chunks]. unfold bind, fp_write, fileop_do.
  rewrite H by (simpl; lia). apply IH. simpl. rewrite length_app. simpl.
  intros k Hk. apply H. simpl. lia.
Qed.

Lemma session_no_fault (p : string) (obj : pyobj) (w : world) :
  (∀ k, (length (trace w) <= k < length (trace w) + session_ops obj)%nat →
        fault k = false) →
  (with_open fault p (fun outfile => json_dump fault obj outfile) w).2 = inr tt.
Proof.
  unfold session_ops. intros H.
  unfold with_open, open_w, json_dump, bind, fp_close, fileop_do, ret.
  rewrite H by lia.
  set (w1 := World _ _).
  assert (Hlen : length (trace w1) = S (length (trace w))).
  { subst w1. simpl. rewrite length_app. simpl. lia. }
  clearbody w1.
  destruct (write_chunks_spec p (Json.iterencode obj) w1) as (evs & Ht & _ & _ & Hr).
  pose proof (write_chunks_no_fault p (Json.iterencode obj) w1) as Hok.
  destruct (write_chunks fault p (Json.iterencode obj) w1) as [w2 r2].
  simpl in Ht, Hr, Hok.
  assert (Hr2 : r2 = inr tt) by (apply Hok; intros k Hk; apply H; lia).
  subst r2. destruct Hr as [-> _].
  rewrite H; [done|]. rewrite Ht, length_app, length_fmap. lia.
Qed.

Lemma faithful_snoc (tr : list event) (op : fileop) (p : string) :
  faithful fault tr →
  faithful fault (tr ++ [Ev op p (negb (fault (length tr)))]).
Proof.
  intros H i e [Hi|[Hi He]]%lookup_app_Some; [by apply H|].
  apply list_lookup_singleton_Some in He as [Hz <-]. simpl.
  by replace i with (length tr) by lia.
Qed.

Lemma fileop_do_faithful op p effect : keeps_faithful fault (fileop_do fault op p effect).
Proof.
  intros w H. unfold fileop_do.
  pose proof (faithful_snoc (trace w) op p H) as H'.
  by destruct (fault (length (trace w))).
Qed.

Lemma bind_faithful {A B} (m : IO A) (k : A -> IO B) :
  keeps_faithful fault m → (∀ a, keeps_faithful fault (k a)) →
  keeps_faithful fault (bind m k).
Proof.
  intros Hm Hk w H. unfold bind. specialize (Hm w H).
  destruct (m w) as [w' [x|a]]; [done|]. by apply Hk.
Qed.

Lemma ret_faithful {A} (a : A) : keeps_faithful fault (ret a).
Proof. by intros w H. Qed.

Lemma write_chunks_faithful fp cs : keeps_faithful fault (write_chunks fault fp cs).
Proof.
  induction cs as [|c cs IH]; [apply ret_faithful|].
  apply bind_faithful; [apply fileop_do_faithful|done].
Qed.

Lemma with_open_faithful {A} p (body : string -> IO A) :
  (∀ fp, keeps_faithful fault (body fp)) →
  keeps_faithful fault (with_open fault p body).
Proof.
  intros Hbody. unfold with_open.
  apply bind_faithful.
  { apply bind_faithful; [apply fileop_do_faithful|intros; apply ret_faithful]. }
  intros fp w H. specialize (Hbody fp w H).
  destruct (body fp w) as [w' [x|a]].
  - pose proof (fileop_do_faithful OpClose fp id w' Hbody) as Hc.
    unfold fp_close. by destruct (fileop_do fault OpClose fp id w') as [w'' [y|u]].
  - apply (bind_faithful (fp_close fault fp) (fun _ => ret a));
      [apply fileop_do_faithful|intros; apply ret_faithful|done].
Qed.

End Session.

(** ** The whole run *)

Section RunFacts.
Variable fault : nat -> bool.

Lemma session_trace_succeeded p obj : Forall ev_succeeded (session_trace p obj).
Proof.
  unfold session_trace. constructor; [done|]. apply Forall_app. split.
  - apply Forall_fmap. by apply Forall_true.
  - by repeat constructor.
Qed.

Lemma session_trace_on p obj : Forall (ev_on p) (session_trace p obj).
Proof.
  unfold session_trace. constructor; [done|]. apply Forall_app. split.
  - apply Forall_fmap. by apply Forall_true.
  - by repeat constructor.
Qed.

Lemma length_session_trace p obj : length (session_trace p obj) = session_ops obj.
Proof.
  unfold session_trace, session_ops. simpl.
  rewrite length_app, length_fmap. simpl. lia.
Qed.

Lemma run_outcome (fs : gmap string string) :
  outcome fs (run fault fs).1 (run fault fs).2.
Proof.
  unfold run, make_json, bind.
  change "small_file.json" with small_file.
  change "large_file.json" with large_file.
  pose proof (session_spec fault small_file (PyDict sdata) (World fs [])) as H1.
  cbv zeta in H1.
  destruct (with_open fault small_file _ (World fs [])) as [w1 r1].
  destruct H1 as (evs1 & Ht1 & Hopen1 & Hon1 & Hq1 & Hr1).
  cbn [fst snd trace app] in Ht1, Hq1, Hr1.
  destruct r1 as [x|[]].
  { cbn [fst snd]. rewrite <- Ht1 in *. apply small_aborted; try done.
    by apply Hq1. }
  destruct Hr1 as [-> Hfs1].
  pose proof (session_spec fault large_file (PyDict ldata) w1) as H2.
  cbv zeta in H2.
  destruct (with_open fault large_file _ w1) as [w2 r2].
  destruct H2 as (evs2 & Ht2 & Hopen2 & Hon2 & Hq2 & Hr2).
  cbn [fst snd] in Ht2, Hq2, Hr2 |- *.
  assert (Hsmall : files w2 !! small_file = Some (Json.dumps (PyDict sdata))).
  { rewrite Hq2 by done. apply Hfs1. }
  rewrite Ht1 in Ht2.
  destruct r2 as [x|[]].
  - eapply large_aborted; eassumption.
  - destruct Hr2 as [-> Hfs2]. apply completed; assumption.
Qed.

Lemma run_other_files (fs : gmap string string) (q : string) :
  q ≠ small_file → q ≠ large_file → files (run fault fs).1 !! q = fs !! q.
Proof.
  intros Hs Hl. unfold run, make_json, bind.
  change "small_file.json" with small_file.
  change "large_file.json" with large_file.
  pose proof (session_spec fault small_file (PyDict sdata) (World fs [])) as H1.
  cbv zeta in H1.
  destruct (with_open fault small_file _ (World fs [])) as [w1 r1].
  destruct H1 as (evs1 & _ & _ & _ & Hq1 & _). cbn [fst snd files] in Hq1.
  destruct r1 as [x|[]]; [by apply Hq1|].
  pose proof (session_spec fault large_file (PyDict ldata) w1) as H2.
  cbv zeta in H2.
  destruct (with_open fault large_file _ w1) as [w2 r2].
  destruct H2 as (evs2 & _ & _ & _ & Hq2 & _). cbn [fst snd] in Hq2 |- *.
  rewrite Hq2 by done. by apply Hq1.
Qed.

Lemma run_faithful (fs : gmap string string) : faithful fault (trace (run fault fs).1).
Proof.
  unfold run, make_json.
  apply bind_faithful; [|intros _| by intros i e Hi].
  - apply with_open_faithful. intros fp. apply write_chunks_faithful.
  - apply with_open_faithful. intros fp. apply write_chunks_faithful.
Qed.

Lemma run_no_fault (fs : gmap string string) :
  no_fault fault → (run fault fs).2 = inr tt.
Proof.
  intros H. unfold run, make_json, bind.
  pose proof (session_spec fault "small_file.json" (PyDict sdata) (World fs [])) as H1.
  pose proof (session_no_fault fault "small_file.json" (PyDict sdata) (World fs [])) as Hok1.
  cbv zeta in H1.
  destruct (with_open fault "small_file.json" _ (World fs [])) as [w1 r1].
  destruct H1 as (evs1 & Ht1 & _ & _ & _ & Hr1).
  cbn [fst snd trace app length] in Ht1, Hr1, Hok1.
  assert (Hr : r1 = inr tt)
    by (apply Hok1; intros k Hk; apply H; unfold make_json_ops; lia).
  subst r1. destruct Hr1 as [-> _].
  apply session_no_fault. intros k Hk. apply H. unfold make_json_ops.
  rewrite Ht1, length_session_trace in Hk. lia.
Qed.

Lemma run_ok_no_fault (fs : gmap string string) :
  (run fault fs).2 = inr tt → no_fault fault.
Proof.
  intros Hok k Hk.
  pose proof (run_outcome fs) as Hout. pose proof (run_faithful fs) as Hf.
  rewrite Hok in Hout. inversion Hout as [| |w Ht _ _ Hw]; subst.
  rewrite Ht in Hf.
  assert (Hall : Forall ev_succeeded
            (session_trace small_file (PyDict sdata)
               ++ session_trace large_file (PyDict ldata)))
    by (apply Forall_app; split; apply session_trace_succeeded).
  destruct (lookup_lt_is_Some_2
              (session_trace small_file (PyDict sdata)
                 ++ session_trace large_file (PyDict ldata)) k) as [e He].
  { rewrite length_app, !length_session_trace. exact Hk. }
  rewrite Forall_lookup in Hall. specialize (Hall k e He). specialize (Hf k e He).
  unfold ev_succeeded in Hall. rewrite Hall in Hf. by destruct (fault k).
Qed.

End RunFacts.

Section RunSummary.
Variable fault : nat -> bool.

(** What a run leaves behind when no operation fails. *)
Lemma run_completed (fs : gmap string string) :
  no_fault fault →
  (run fault fs).2 = inr tt ∧
  trace (run fault fs).1
    = session_trace small_file (PyDict sdata) ++ session_trace large_file (PyDict ldata) ∧
  files (run fault fs).1 !! small_file = Some (Json.dumps (PyDict sdata)) ∧
  files (run fault fs).1 !! large_file = Some (Json.dumps (PyDict ldata)).
Proof.
  intros H. pose proof (run_no_fault fault fs H) as Hok.
  pose proof (run_outcome fault fs) as Hout. rewrite Hok in Hout.
  inversion Hout as [| |w Ht Hs Hl Hw].
  split; [exact Hok|]. split; [exact Ht|]. split; [exact Hs|exact Hl].
Qed.

(** After the operation that failed, a run does nothing but close the
    file it was working on. *)
Lemma aborted_nothing_after (p : string) (before evs : list event) :
  Forall ev_succeeded before → Forall (ev_on p) evs → aborted p evs →
  ∀ (i : nat) (e : event),
    (before ++ evs) !! i = Some e → ev_ok e = false →
    ∀ (j : nat) (e' : event),
      (i < j)%nat → (before ++ evs) !! j = Some e' →
      ev_op e' = OpClose ∧ ev_path e' = ev_path e.
Proof.
  intros Hbefore Hon (pre & f & post & -> & Hpre & Hf & Hpost) i e Hi He j e' Hij Hj.
  assert (Hpath : ev_path e = p).
  { apply lookup_app_Some in Hi as [Hi|[_ Hi]].
    - rewrite Forall_lookup in Hbefore. specialize (Hbefore i e Hi).
      unfold ev_succeeded in Hbefore. congruence.
    - rewrite Forall_lookup in Hon. exact (Hon _ _ Hi). }
  rewrite app_assoc in Hi, Hj.
  assert (Hall : Forall ev_succeeded (before ++ pre))
    by (apply Forall_app; split; assumption).
  apply lookup_app_Some in Hi as [Hi|[Hlen Hi]].
  { rewrite Forall_lookup in Hall. specialize (Hall i e Hi).
    unfold ev_succeeded in Hall. congruence. }
  apply lookup_app_Some in Hj as [Hj|[Hlen' Hj]].
  { apply lookup_lt_Some in Hj. lia. }
  destruct (j - length (before ++ pre))%nat as [|j'] eqn:Hjj; [lia|].
  simpl in Hj. destruct Hpost as [->|[b ->]]; [by rewrite lookup_nil in Hj|].
  apply list_lookup_singleton_Some in Hj as [_ <-]. simpl. by rewrite Hpath.
Qed.

Lemma aborted_not_all_succeeded (p : string) (before evs : list event) :
  aborted p evs → ¬ Forall ev_succeeded (before ++ evs).
Proof.
  intros (pre & f & post & -> & _ & Hf & _) Hall.
  apply Forall_app in Hall as [_ Hall]. apply Forall_app in Hall as [_ Hall].
  apply Forall_cons in Hall as [Hall _]. unfold ev_succeeded in Hall. congruence.
Qed.

Lemma failed_on_app (p : string) (l1 l2 : list event) :
  failed_on p (l1 ++ l2) = failed_on p l1 || failed_on p l2.
Proof. unfold failed_on. apply existsb_app. Qed.

Lemma failed_on_succeeded (p : string) (l : list event) :
  Forall ev_succeeded l → failed_on p l = false.
Proof.
  induction 1 as [|e l He _ IH]; [reflexivity|].
  unfold failed_on in *. simpl. rewrite IH. unfold ev_succeeded in He.
  rewrite He. simpl. by rewrite andb_false_r.
Qed.

Lemma failed_on_elsewhere (p q : string) (l : list event) :
  q ≠ p → Forall (ev_on q) l → failed_on p l = false.
Proof.
  intros Hne. induction 1 as [|e l He _ IH]; [reflexivity|].
  unfold failed_on in *. simpl. rewrite IH. unfold ev_on in He.
  rewrite bool_decide_eq_false_2 by congruence. reflexivity.
Qed.

End RunSummary.

(** A run in which the third write to the small file fails: the block
    closes the file, the exception leaves the script, the large file is
    not touched. *)
Example run_third_write_fails :
  let out := run (fun k => Nat.eqb k 3) {["large_file.json" := "stale"]} in
  trace out.1
    = [Ev OpOpen "small_file.json" true;
       Ev (OpWrite "{") "small_file.json" true;
       Ev (OpWrite (Json.encoder "numbers")) "small_file.json" true;
       Ev (OpWrite ": ") "small_file.json" false;
       Ev OpClose "small_file.json" true] ∧
  out.2 = inl (OSError (OpWrite ": ") "small_file.json") ∧
  files out.1 !! "small_file.json" = Some ("{" +:+ Json.encoder "numbers") ∧
  files out.1 !! "large_file.json" = Some "stale".
Proof. cbv zeta. split; [|split; [|split]]; reflexivity. Qed.

(** ** Reading back what the encoder writes *)

Section ReadBack.

Lemma numbers_document_eq (zs : list Z) :
  numbers_document zs = PyDict [("numbers", PyList (PyInt <$> zs))].
Proof. reflexivity. Qed.

Lemma all_chars_app (P : ascii -> bool) (a b : string) :
  all_chars P (a +:+ b) = all_chars P a && all_chars P b.
Proof.
  induction a as [|x a IH]; [done|].
  rewrite string_app_cons. simpl. by rewrite IH, andb_assoc.
Qed.

Lemma all_chars_impl (P Q : ascii -> bool) (s : string) :
  (∀ c, P c = true → Q c = true) → all_chars P s = true → all_chars Q s = true.
Proof.
  intros HPQ. induction s as [|x s IH]; [done|]. simpl.
  intros [Hx Hs]%andb_true_iff. by rewrite (HPQ _ Hx), IH.
Qed.

Lemma string_length_app (a b : string) :
  String.length (a +:+ b) = (String.length a + String.length b)%nat.
Proof. induction a as [|x a IH]; [done|]. rewrite string_app_cons. simpl. by rewrite IH. Qed.

Lemma intstr_number_chars (z : Z) : all_chars is_number_char (Json.intstr z) = true.
Proof.
  assert (Hu : ∀ d, all_chars is_number_char (NilEmpty.string_of_uint d) = true)
    by (induction d; done).
  unfold Json.intstr.
  destruct (Z.to_int z) as [d|d]; simpl; unfold NilZero.string_of_uint;
    destruct d; first [done | apply Hu | exact (Hu (_ d))].
Qed.

Lemma intstr_nonempty (z : Z) :
  ∃ c s, Json.intstr z = String c s ∧ is_number_char c = true.
Proof.
  pose proof (intstr_number_chars z) as Hc.
  assert (Hu : ∀ d, d ≠ Decimal.Nil → ∃ c s, NilZero.string_of_uint d = String c s)
    by (intros [] Hd; try done; simpl; eauto).
  assert (He : ∃ c s, Json.intstr z = String c s).
  { unfold Json.intstr. destruct z as [|p|p]; simpl.
    - eauto.
    - apply Hu, DecimalPos.Unsigned.to_uint_nonnil.
    - eauto. }
  destruct He as (c & s & He). exists c, s. split; [exact He|].
  rewrite He in Hc. simpl in Hc. by apply andb_true_iff in Hc as [Hc _].
Qed.

Lemma sep_join_cons (x : string) (l : list string) (t : string) :
  Spec.sep_join ", " (x :: l) +:+ t
  = x +:+ match l with [] => t | _ => ", " +:+ (Spec.sep_join ", " l +:+ t) end.
Proof.
  destruct l as [|y l]; [done|].
  cbn [Spec.sep_join]. by rewrite !string_app_assoc.
Qed.

Lemma number_char_not_space (c : ascii) :
  is_number_char c = true → Reader.is_space c = false.
Proof.
  unfold is_number_char, Reader.is_space. generalize (N_of_ascii c). intros n.
  rewrite orb_true_iff, andb_true_iff, N.eqb_eq, !N.leb_le.
  rewrite !orb_false_iff, !N.eqb_neq. lia.
Qed.

Lemma skip_space_number (c : ascii) (s : string) :
  is_number_char c = true → Reader.skip_space (String c s) = String c s.
Proof. intros Hc. simpl. by rewrite number_char_not_space. Qed.

Lemma span_number_app (a : string) (c : ascii) (t : string) :
  all_chars is_number_char a = true → is_number_char c = false →
  Reader.span_number (a +:+ String c t) = (a, String c t).
Proof.
  intros Ha Hc. induction a as [|x a IH].
  - rewrite string_app_nil_l. simpl. by rewrite Hc.
  - simpl in Ha. apply andb_true_iff in Ha as [Hx Ha].
    rewrite string_app_cons. simpl. by rewrite Hx, (IH Ha).
Qed.

(** The decimal form of a positive number does not start with a zero. *)
Lemma to_uint_no_leading_zero (p : positive) (d : Decimal.uint) :
  Pos.to_uint p ≠ Decimal.D0 d.
Proof.
  intros H.
  pose proof (DecimalPos.Unsigned.to_of (Pos.to_uint p)) as Hn.
  rewrite DecimalPos.Unsigned.of_to in Hn. simpl in Hn. rewrite H in Hn.
  unfold Decimal.unorm in Hn. simpl in Hn.
  destruct (Decimal.nzhead d) as [|u|u|u|u|u|u|u|u|u|u] eqn:Hd; try discriminate Hn.
  - injection Hn as ->. by apply (DecimalPos.Unsigned.to_uint_nonzero p).
  - by apply (DecimalFacts.nzhead_nonzero d u).
Qed.

Lemma no_leading_zero_intstr (z : Z) : Reader.no_leading_zero (Json.intstr z) = true.
Proof.
  unfold Json.intstr. destruct z as [|p|p]; [reflexivity| |]; simpl;
    pose proof (to_uint_no_leading_zero p) as Hz;
    pose proof (DecimalPos.Unsigned.to_uint_nonnil p) as Hn;
    destruct (Pos.to_uint p) as [|d|d|d|d|d|d|d|d|d|d];
    try done; try (by exfalso; eapply Hz); simpl;
    destruct (NilEmpty.string_of_uint d) as [|? [|? ?]]; reflexivity.
Qed.

Lemma read_int_intstr (z : Z) (c : ascii) (t : string) :
  is_number_char c = false →
  Reader.read_int (Json.intstr z +:+ String c t) = Some (z, String c t).
Proof.
  intros Hc. unfold Reader.read_int.
  rewrite (span_number_app _ _ _ (intstr_number_chars z) Hc). simpl.
  rewrite no_leading_zero_intstr. unfold Json.intstr.
  rewrite NilZero.isi.
  - by rewrite DecimalZ.of_to.
  - destruct z as [|p|p]; simpl; try discriminate.
    intros [= H]. by apply DecimalPos.Unsigned.to_uint_nonnil in H.
  - destruct z as [|p|p]; simpl; try discriminate.
    intros [= H]. by apply DecimalPos.Unsigned.to_uint_nonnil in H.
Qed.

(** The items of an array as the encoder lays them out are read back, the
    rest of the text is left over. *)
Lemma read_items_spec (zs : list Z) (z : Z) (fuel : nat) (t : string) :
  (length zs < fuel)%nat →
  Reader.read_items fuel (Spec.sep_join ", " (Json.intstr <$> z :: zs) +:+ String "]" t)
  = Some (z :: zs, t).
Proof.
  revert z fuel. induction zs as [|z' zs IH]; intros z fuel Hfuel;
    (destruct fuel as [|fuel]; [simpl in Hfuel; lia|]).
  - change (Json.intstr <$> [z]) with [Json.intstr z].
    rewrite sep_join_cons. cbn [Reader.read_items].
    rewrite read_int_intstr by done. reflexivity.
  - change (Json.intstr <$> z :: z' :: zs)
      with (Json.intstr z :: (Json.intstr <$> z' :: zs)).
    rewrite sep_join_cons.
    change (Json.intstr <$> z' :: zs) with (Json.intstr z' :: (Json.intstr <$> zs)).
    cbv iota.
    change (", " +:+ ?x) with (String "," (String " " x)).
    cbn [Reader.read_items]. rewrite read_int_intstr by done.
    change (Reader.skip_space (String "," ?x)) with (String "," x). cbv iota.
    change (Ascii.eqb "," ",") with true. cbv iota.
    change (Reader.skip_space (String " " ?x)) with (Reader.skip_space x).
    assert (Hskip : ∀ s, Reader.skip_space
                      (Spec.sep_join ", " (Json.intstr z' :: (Json.intstr <$> zs)) +:+ s)
                    = Spec.sep_join ", " (Json.intstr z' :: (Json.intstr <$> zs)) +:+ s).
    { intros s. rewrite sep_join_cons.
      destruct (intstr_nonempty z') as (c & r & -> & Hc).
      rewrite string_app_cons. by apply skip_space_number. }
    rewrite Hskip.
    change (Json.intstr z' :: (Json.intstr <$> zs)) with (Json.intstr <$> z' :: zs).
    rewrite IH by (simpl in Hfuel; lia). reflexivity.
Qed.

Lemma length_items (zs : list Z) (t : string) :
  (length zs <= String.length (Spec.sep_join ", " (Json.intstr <$> zs) +:+ t))%nat.
Proof.
  induction zs as [|z zs IH]; [simpl; lia|].
  change (Json.intstr <$> z :: zs) with (Json.intstr z :: (Json.intstr <$> zs)).
  rewrite sep_join_cons, string_length_app.
  destruct (intstr_nonempty z) as (c & r & -> & _).
  destruct zs as [|z' zs]; [simpl; lia|].
  change (Json.intstr <$> z' :: zs) with (Json.intstr z' :: (Json.intstr <$> zs)) in *.
  cbv iota. rewrite (string_length_app ", ").
  change (String.length ", ") with 2%nat.
  cbn [length String.length] in IH |- *. lia.
Qed.

(** The reader on the fixed part of the format, up to the array. *)
Lemma read_numbers_head (body : string) :
  Reader.read_numbers
    ("{" +:+ String Json.dquote ("numbers" +:+ String Json.dquote (": [" +:+ body)))
  = match Reader.read_array (String "[" body) with
    | None => None
    | Some (zs, s4) =>
        match Reader.expect "}" (Reader.skip_space s4) with
        | None => None
        | Some s5 =>
            match Reader.skip_space s5 with
            | EmptyString => Some zs
            | String _ _ => None
            end
        end
    end.
Proof. reflexivity. Qed.

(** Reading the text of the output format gives back the numbers. *)
Lemma read_compact_text (zs : list Z) :
  Reader.read_numbers (Spec.compact_text zs) = Some zs.
Proof.
  destruct zs as [|z zs]; [reflexivity|].
  unfold Spec.compact_text.
  change (?x +:+ "]}") with (x +:+ String "]" "}").
  pose proof (read_items_spec zs z) as Hitems.
  pose proof (length_items (z :: zs) (String "]" "}")) as Hlen.
  destruct (intstr_nonempty z) as (c & r & Hz & Hc).
  assert (Hhead : ∃ body, Spec.sep_join ", " (Json.intstr <$> z :: zs) +:+ String "]" "}"
                          = String c body).
  { change (Json.intstr <$> z :: zs) with (Json.intstr z :: (Json.intstr <$> zs)).
    rewrite sep_join_cons, Hz, string_app_cons. eauto. }
  destruct Hhead as (body & Hbody).
  specialize (Hitems (String.length (String c body)) "}").
  rewrite Hbody in Hitems, Hlen |- *.
  rewrite read_numbers_head. unfold Reader.read_array.
  change (Reader.expect "[" (String "[" ?x)) with (Some x). cbv iota.
  rewrite (skip_space_number c body Hc).
  assert (Hne : Ascii.eqb c "]" = false)
    by (destruct (Ascii.eqb_spec c "]") as [->|]; [discriminate Hc|reflexivity]).
  rewrite Hne.
  rewrite Hitems by (simpl in Hlen |- *; lia).
  reflexivity.
Qed.

End ReadBack.

(** ** The properties of the generator *)

Lemma dict_getitem_single (k : string) (v : pyobj) :
  Py.dict_getitem [(k, v)] k = Some v.
Proof. unfold Py.dict_getitem. rewrite decide_True by reflexivity. reflexivity. Qed.

(** C1: the document written to [small_file.json] has a field [numbers]
    whose value is a sequence of length 500 with [numbers[i] == i] for
    every [0 <= i < 500].  When no file operation fails, reading the file
    back gives a document whose [numbers] is that sequence, and it is the
    [numbers] of the document [sdata] the script built. *)
Theorem small_file_numbers (fault : nat -> bool) (fs : gmap string string) :
  no_fault fault →
  ∃ (text : string) (numbers : list Z),
    files (run fault fs).1 !! "small_file.json" = Some text ∧
    Reader.read_numbers text = Some numbers ∧
    Py.dict_getitem sdata "numbers" = Some (PyList (PyInt <$> numbers)) ∧
    Z.of_nat (length numbers) = 500 ∧
    ∀ i : Z, 0 <= i < 500 → numbers !! Z.to_nat i = Some i.
Proof.
  intros H. destruct (run_completed fault fs H) as (_ & _ & Hs & _).
  exists (Json.dumps (PyDict sdata)), (seqZ 0 500).
  split; [exact Hs|].
  split; [rewrite sdata_eq, snumbers_eq, dumps_fixture; apply read_compact_text|].
  split; [rewrite sdata_eq, snumbers_eq; apply dict_getitem_single|].
  split; [rewrite length_seqZ; lia|].
  intros i Hi. rewrite lookup_seqZ_lt by lia. f_equal. lia.
Qed.

Lemma small_file_numbers_witness :
  no_fault (fun _ => false) ∧
  ∃ (text : string) (numbers : list Z),
    files (run (fun _ => false) ∅).1 !! "small_file.json" = Some text ∧
    Reader.read_numbers text = Some numbers ∧
    Py.dict_getitem sdata "numbers" = Some (PyList (PyInt <$> numbers)) ∧
    Z.of_nat (length numbers) = 500 ∧
    ∀ i : Z, 0 <= i < 500 → numbers !! Z.to_nat i = Some i.
Proof.
  split; [intros k _; reflexivity|].
  apply (small_file_numbers (fun _ => false) ∅). intros k _. reflexivity.
Defined.

(** C2: the document written to [large_file.json] has a field [numbers]
    whose value is a sequence of length 100000 with [numbers[i] == i] for
    every [0 <= i < 100000]; its last element is 99999.  When no file
    operation fails, reading the file back gives a document whose
    [numbers] is that sequence, and it is the [numbers] of the document
    [ldata] the script built. *)
Theorem large_file_numbers (fault : nat -> bool) (fs : gmap string string) :
  no_fault fault →
  ∃ (text : string) (numbers : list Z),
    files (run fault fs).1 !! "large_file.json" = Some text ∧
    Reader.read_numbers text = Some numbers ∧
    Py.dict_getitem ldata "numbers" = Some (PyList (PyInt <$> numbers)) ∧
    Z.of_nat (length numbers) = 100000 ∧
    (∀ i : Z, 0 <= i < 100000 → numbers !! Z.to_nat i = Some i) ∧
    last numbers = Some 99999.
Proof.
  intros H. destruct (run_completed fault fs H) as (_ & _ & _ & Hl).
  exists (Json.dumps (PyDict ldata)), (seqZ 0 100000).
  split; [exact Hl|].
  split; [rewrite ldata_eq, lnumbers_eq, dumps_fixture; apply read_compact_text|].
  split; [rewrite ldata_eq, lnumbers_eq; apply dict_getitem_single|].
  split; [rewrite length_seqZ; lia|]. split.
  - intros i Hi. rewrite lookup_seqZ_lt by lia. f_equal. lia.
  - assert (E : seqZ 0 100000 = seqZ 0 99999 ++ [99999]).
    { assert (E1 : seqZ 99999 1 = [99999])
        by (rewrite seqZ_cons by lia; by rewrite seqZ_nil by lia).
      rewrite <- E1. apply (seqZ_app 0 99999 1); lia. }
    rewrite E. apply last_snoc.
Qed.

Lemma large_file_numbers_witness :
  no_fault (fun _ => false) ∧
  ∃ (text : string) (numbers : list Z),
    files (run (fun _ => false) ∅).1 !! "large_file.json" = Some text ∧
    Reader.read_numbers text = Some numbers ∧
    Py.dict_getitem ldata "numbers" = Some (PyList (PyInt <$> numbers)) ∧
    Z.of_nat (length numbers) = 100000 ∧
    (∀ i : Z, 0 <= i < 100000 → numbers !! Z.to_nat i = Some i) ∧
    last numbers = Some 99999.
Proof.
  split; [intros k _; reflexivity|].
  apply (large_file_numbers (fun _ => false) ∅). intros k _. reflexivity.
Defined.

(** C3: both documents the generator produces are mappings with exactly one
    field, named [numbers], whose value is the strictly ascending sequence
    [0..count-1], [count] being the requested length. *)
Theorem documents_are_fixtures :
  Spec.fixture_document 500 sdata ∧ Spec.fixture_document 100000 ldata.
Proof.
  split.
  - rewrite sdata_eq, snumbers_eq. apply fixture_document_range. lia.
  - rewrite ldata_eq, lnumbers_eq. apply fixture_document_range. lia.
Qed.

(** C4: the generator is deterministic.  Two runs in which no file
    operation fails, whatever the files were before each of them, write the
    same chunks in the same order and leave the same bytes in
    [small_file.json], and likewise in [large_file.json]; a run has no
    other input. *)
Theorem make_json_deterministic
    (fault1 fault2 : nat -> bool) (fs1 fs2 : gmap string string) :
  no_fault fault1 → no_fault fault2 →
  trace (run fault1 fs1).1 = trace (run fault2 fs2).1 ∧
  is_Some (files (run fault1 fs1).1 !! "small_file.json") ∧
  files (run fault1 fs1).1 !! "small_file.json"
    = files (run fault2 fs2).1 !! "small_file.json" ∧
  is_Some (files (run fault1 fs1).1 !! "large_file.json") ∧
  files (run fault1 fs1).1 !! "large_file.json"
    = files (run fault2 fs2).1 !! "large_file.json".
Proof.
  intros H1 H2.
  destruct (run_completed fault1 fs1 H1) as (_ & Ht1 & Hs1 & Hl1).
  destruct (run_completed fault2 fs2 H2) as (_ & Ht2 & Hs2 & Hl2).
  unfold small_file, large_file in *.
  rewrite Ht1, Ht2, Hs1, Hs2, Hl1, Hl2. repeat split; eexists; reflexivity.
Qed.

Lemma make_json_deterministic_witness :
  no_fault (fun _ => false) ∧ no_fault (fun _ => false) ∧
  trace (run (fun _ => false) ∅).1
    = trace (run (fun _ => false) {["small_file.json" := "stale"]}).1 ∧
  is_Some (files (run (fun _ => false) ∅).1 !! "small_file.json") ∧
  files (run (fun _ => false) ∅).1 !! "small_file.json"
    = files (run (fun _ => false) {["small_file.json" := "stale"]}).1
        !! "small_file.json" ∧
  is_Some (files (run (fun _ => false) ∅).1 !! "large_file.json") ∧
  files (run (fun _ => false) ∅).1 !! "large_file.json"
    = files (run (fun _ => false) {["small_file.json" := "stale"]}).1
        !! "large_file.json".
Proof.
  split; [intros k _; reflexivity|]. split; [intros k _; reflexivity|].
  apply (make_json_deterministic (fun _ => false) (fun _ => false)
           ∅ {["small_file.json" := "stale"]});
    intros k _; reflexivity.
Defined.

(** C5: opening a path for writing creates or truncates the file, and the
    write replaces what was there.  Whatever the files held before the run,
    after a run in which no operation fails [small_file.json] holds exactly
    the encoding of its document, and so does [large_file.json]. *)
Theorem last_write_wins (fault : nat -> bool) (fs : gmap string string) :
  no_fault fault →
  files (run fault fs).1 !! "small_file.json" = Some (Json.dumps (PyDict sdata)) ∧
  files (run fault fs).1 !! "large_file.json" = Some (Json.dumps (PyDict ldata)).
Proof.
  intros H. destruct (run_completed fault fs H) as (_ & _ & Hs & Hl).
  split; [exact Hs|exact Hl].
Qed.

Lemma last_write_wins_witness :
  no_fault (fun _ => false) ∧
  files (run (fun _ => false)
           {["small_file.json" := "stale"; "large_file.json" := "[1, 2, 3]"]}).1
    !! "small_file.json" = Some (Json.dumps (PyDict sdata)) ∧
  files (run (fun _ => false)
           {["small_file.json" := "stale"; "large_file.json" := "[1, 2, 3]"]}).1
    !! "large_file.json" = Some (Json.dumps (PyDict ldata)).
Proof.
  split; [intros k _; reflexivity|].
  apply (last_write_wins (fun _ => false)). intros k _. reflexivity.
Defined.

(** C6: the two writes are sequential and ordered.  The trace of every run
    is the operations on [small_file.json] followed by the operations on
    [large_file.json]; when there is any of the latter, the first of them
    is the open, and the former are the whole block of the small file: it
    was opened, every chunk was written, and it was closed, so that it
    holds the whole encoding of its document. *)
Theorem writes_are_sequential (fault : nat -> bool) (fs : gmap string string) :
  ∃ evs_small evs_large : list event,
    trace (run fault fs).1 = evs_small ++ evs_large ∧
    Forall (ev_on "small_file.json") evs_small ∧
    Forall (ev_on "large_file.json") evs_large ∧
    (evs_large = [] ∨
     (evs_small = session_trace "small_file.json" (PyDict sdata) ∧
      files (run fault fs).1 !! "small_file.json" = Some (Json.dumps (PyDict sdata)) ∧
      ∃ b tl, evs_large = Ev OpOpen "large_file.json" b :: tl)).
Proof.
  destruct (run_outcome fault fs) as [w e Hopen Hon Hab Hfs|w e evs Ht Hopen Hon Hab Hfs|w Ht Hs Hl].
  - exists (trace w), []. rewrite app_nil_r.
    split; [reflexivity|]. split; [exact Hon|]. split; [constructor|]. left. reflexivity.
  - exists (session_trace small_file (PyDict sdata)), evs.
    split; [exact Ht|]. split; [apply session_trace_on|]. split; [exact Hon|].
    right. split; [reflexivity|]. split; [exact Hfs|exact Hopen].
  - exists (session_trace small_file (PyDict sdata)), (session_trace large_file (PyDict ldata)).
    split; [exact Ht|]. split; [apply session_trace_on|]. split; [apply session_trace_on|].
    right. split; [reflexivity|]. split; [exact Hs|]. eexists _, _. reflexivity.
Qed.

Lemma exit_status_zero (r : exn + unit) : exit_status r = 0 ↔ r = inr tt.
Proof. destruct r as [x|[]]; simpl; split; intros H; try reflexivity; discriminate H. Qed.

(** C7: the run exits with status zero if and only if no file operation
    fails (none of the operations it performs, which is to say none the
    environment lets fail among the operations of a full run).  A failure is
    not caught and not retried: the exception reaches the top level, the
    status is 1, and after the failed operation nothing happens but the
    close of that same file. *)
Theorem exit_status_zero_iff (fault : nat -> bool) (fs : gmap string string) :
  (exit_status (run fault fs).2 = 0 ↔ Forall ev_succeeded (trace (run fault fs).1)) ∧
  (exit_status (run fault fs).2 = 0 ↔ no_fault fault) ∧
  (∀ (i : nat) (e : event),
     trace (run fault fs).1 !! i = Some e → ev_ok e = false →
     (∃ x, (run fault fs).2 = inl x) ∧
     exit_status (run fault fs).2 = 1 ∧
     ∀ (j : nat) (e' : event),
       (i < j)%nat → trace (run fault fs).1 !! j = Some e' →
       ev_op e' = OpClose ∧ ev_path e' = ev_path e).
Proof.
  assert (H2 : exit_status (run fault fs).2 = 0 ↔ no_fault fault).
  { rewrite exit_status_zero. split; [apply run_ok_no_fault|apply run_no_fault]. }
  split; [|split; [exact H2|]]; clear H2.
  - destruct (run_outcome fault fs)
      as [w e Hopen Hon Hab Hfs|w e evs Ht Hopen Hon Hab Hfs|w Ht Hs Hl].
    + split; [intros H; discriminate H|].
      intros H. exfalso. exact (aborted_not_all_succeeded small_file [] _ Hab H).
    + split; [intros H; discriminate H|].
      intros H. exfalso. rewrite Ht in H.
      exact (aborted_not_all_succeeded large_file _ _ Hab H).
    + split; [|reflexivity]. intros _. rewrite Ht.
      apply Forall_app. split; apply session_trace_succeeded.
  - destruct (run_outcome fault fs)
      as [w e Hopen Hon Hab Hfs|w e evs Ht Hopen Hon Hab Hfs|w Ht Hs Hl];
      intros i f Hi Hf.
    + split; [eexists; reflexivity|]. split; [reflexivity|].
      exact (aborted_nothing_after small_file [] (trace w)
               (Forall_nil_2 _) Hon Hab i f Hi Hf).
    + split; [eexists; reflexivity|]. split; [reflexivity|].
      rewrite Ht in Hi |- *.
      exact (aborted_nothing_after large_file _ evs
               (session_trace_succeeded small_file (PyDict sdata)) Hon Hab i f Hi Hf).
    + exfalso. rewrite Ht in Hi.
      assert (Hall : Forall ev_succeeded
                (session_trace small_file (PyDict sdata)
                   ++ session_trace large_file (PyDict ldata)))
        by (apply Forall_app; split; apply session_trace_succeeded).
      rewrite Forall_lookup in Hall. specialize (Hall i f Hi).
      unfold ev_succeeded in Hall. congruence.
Qed.

(** C8: when an operation on [small_file.json] fails, the run ends there:
    the exception leaves the script, no operation on [large_file.json] is
    performed, and [large_file.json] is what it was before the run, absent
    or with its former content. *)
Theorem small_failure_spares_large (fault : nat -> bool) (fs : gmap string string) :
  failed_on "small_file.json" (trace (run fault fs).1) = true →
  (∃ x, (run fault fs).2 = inl x) ∧
  Forall (fun e => ev_path e ≠ "large_file.json") (trace (run fault fs).1) ∧
  files (run fault fs).1 !! "large_file.json" = fs !! "large_file.json".
Proof.
  change "small_file.json" with small_file.
  destruct (run_outcome fault fs)
    as [w e Hopen Hon Hab Hfs|w e evs Ht Hopen Hon Hab Hfs|w Ht Hs Hl]; intros Hfail.
  - split; [eexists; reflexivity|]. split; [|exact Hfs].
    eapply Forall_impl; [exact Hon|]. intros f Hf. unfold ev_on in Hf.
    rewrite Hf. discriminate.
  - exfalso. rewrite Ht, failed_on_app in Hfail.
    rewrite (failed_on_succeeded _ _ (session_trace_succeeded small_file (PyDict sdata))) in Hfail.
    rewrite (failed_on_elsewhere small_file large_file evs) in Hfail;
      [discriminate Hfail|discriminate|exact Hon].
  - exfalso. rewrite Ht, failed_on_app in Hfail.
    rewrite !failed_on_succeeded in Hfail by apply session_trace_succeeded.
    discriminate Hfail.
Qed.

Lemma small_failure_spares_large_witness :
  failed_on "small_file.json"
    (trace (run (fun k => Nat.eqb k 3) {["large_file.json" := "stale"]}).1) = true ∧
  (∃ x, (run (fun k => Nat.eqb k 3) {["large_file.json" := "stale"]}).2 = inl x) ∧
  Forall (fun e => ev_path e ≠ "large_file.json")
    (trace (run (fun k => Nat.eqb k 3) {["large_file.json" := "stale"]}).1) ∧
  files (run (fun k => Nat.eqb k 3) {["large_file.json" := "stale"]}).1
    !! "large_file.json"
    = ({["large_file.json" := "stale"]} : gmap string string) !! "large_file.json".
Proof.
  split; [reflexivity|].
  apply (small_failure_spares_large (fun k => Nat.eqb k 3)). reflexivity.
Defined.

(** C9: the small sequence is a prefix of the large one.  When no file
    operation fails, the [numbers] read back from [small_file.json] and
    from [large_file.json] (the [numbers] of the two documents the script
    built) agree at every index [0 <= i < 500], the first list being a
    prefix of the second. *)
Theorem small_numbers_prefix_of_large (fault : nat -> bool) (fs : gmap string string) :
  no_fault fault →
  ∃ (ts tl : string) (small large : list Z),
    files (run fault fs).1 !! "small_file.json" = Some ts ∧
    files (run fault fs).1 !! "large_file.json" = Some tl ∧
    Reader.read_numbers ts = Some small ∧
    Reader.read_numbers tl = Some large ∧
    Py.dict_getitem sdata "numbers" = Some (PyList (PyInt <$> small)) ∧
    Py.dict_getitem ldata "numbers" = Some (PyList (PyInt <$> large)) ∧
    small `prefix_of` large ∧
    ∀ i : Z, 0 <= i < 500 →
      ∃ x, small !! Z.to_nat i = Some x ∧ large !! Z.to_nat i = Some x.
Proof.
  intros H. destruct (run_completed fault fs H) as (_ & _ & Hs & Hl).
  exists (Json.dumps (PyDict sdata)), (Json.dumps (PyDict ldata)),
    (seqZ 0 500), (seqZ 0 100000).
  split; [exact Hs|]. split; [exact Hl|].
  split; [rewrite sdata_eq, snumbers_eq, dumps_fixture; apply read_compact_text|].
  split; [rewrite ldata_eq, lnumbers_eq, dumps_fixture; apply read_compact_text|].
  split; [rewrite sdata_eq, snumbers_eq; apply dict_getitem_single|].
  split; [rewrite ldata_eq, lnumbers_eq; apply dict_getitem_single|].
  split.
  - exists (seqZ 500 99500). apply (seqZ_app 0 500 99500); lia.
  - intros i Hi. exists i. rewrite !lookup_seqZ_lt by lia.
    split; f_equal; lia.
Qed.

Lemma small_numbers_prefix_of_large_witness :
  no_fault (fun _ => false) ∧
  ∃ (ts tl : string) (small large : list Z),
    files (run (fun _ => false) ∅).1 !! "small_file.json" = Some ts ∧
    files (run (fun _ => false) ∅).1 !! "large_file.json" = Some tl ∧
    Reader.read_numbers ts = Some small ∧
    Reader.read_numbers tl = Some large ∧
    Py.dict_getitem sdata "numbers" = Some (PyList (PyInt <$> small)) ∧
    Py.dict_getitem ldata "numbers" = Some (PyList (PyInt <$> large)) ∧
    small `prefix_of` large ∧
    ∀ i : Z, 0 <= i < 500 →
      ∃ x, small !! Z.to_nat i = Some x ∧ large !! Z.to_nat i = Some x.
Proof.
  split; [intros k _; reflexivity|].
  apply (small_numbers_prefix_of_large (fun _ => false) ∅). intros k _. reflexivity.
Defined.



(** ** Blocks: what a run does to the file it is working on *)

Section Blocks.
Variable fault : nat -> bool.

Lemma failures_app (l1 l2 : list event) : failures (l1 ++ l2) = failures l1 ++ failures l2.
Proof. apply List.filter_app. Qed.

Lemma failures_succeeded (l : list event) : Forall ev_succeeded l → failures l = [].
Proof.
  induction 1 as [|e l He _ IH]; [reflexivity|].
  unfold failures in *. simpl. unfold ev_succeeded in He. by rewrite He.
Qed.

Lemma failures_ok_writes (p : string) (cs : list string) : failures (ok_write p <$> cs) = [].
Proof. apply failures_succeeded, Forall_fmap. by apply Forall_true. Qed.

Lemma join_take_drop (k : nat) (cs : list string) :
  Json.join cs = Json.join (take k cs) +:+ Json.join (drop k cs).
Proof. by rewrite <- join_app, take_drop. Qed.

(** The loop of [json.dump] either writes every chunk, or stops at the
    first write that fails, having written the chunks before it. *)
Lemma write_chunks_shape (fp : string) (cs : list string) (w : world) :
  let out := write_chunks fault fp cs w in
  (out.2 = inr tt ∧
   trace out.1 = trace w ++ (ok_write fp <$> cs) ∧
   files out.1 !! fp = (fun old => old +:+ Json.join cs) <$> files w !! fp)
  ∨
  (∃ k c,
     cs !! k = Some c ∧
     out.2 = inl (OSError (OpWrite c) fp) ∧
     trace out.1 = trace w ++ (ok_write fp <$> take k cs) ++ [Ev (OpWrite c) fp false] ∧
     files out.1 !! fp = (fun old => old +:+ Json.join (take k cs)) <$> files w !! fp).
Proof.
  revert w. induction cs as [|c cs IH]; intros w; cbv zeta.
  - left. simpl. rewrite app_nil_r. split_and!; try done.
    destruct (files w !! fp); simpl; [|done]. by rewrite string_app_nil_r.
  - cbn [write_chunks]. unfold bind, fp_write, fileop_do.
    destruct (fault (length (trace w))) eqn:Hf.
    + right. exists 0%nat, c. simpl. split_and!; try done.
      destruct (files w !! fp); simpl; [|done]. by rewrite string_app_nil_r.
    + set (w1 := World _ _).
      assert (Hfs : ∀ s, (fun old => old +:+ s) <$> files w1 !! fp
                         = (fun old => old +:+ (c +:+ s)) <$> files w !! fp).
      { intros s. subst w1. simpl. rewrite lookup_alter_eq.
        destruct (files w !! fp); simpl; [|done]. by rewrite string_app_assoc. }
      assert (Htr : trace w1 = trace w ++ [ok_write fp c]) by done.
      clearbody w1.
      destruct (IH w1) as [(Hr & Ht & Hc)|(k & c' & Hk & Hr & Ht & Hc)].
      * left. split_and!; [done| |].
        -- rewrite Ht, Htr. by rewrite <- app_assoc.
        -- rewrite Hc, Hfs. done.
      * right. exists (S k), c'. split_and!; [done|done| |].
        -- rewrite Ht, Htr. by rewrite <- !app_assoc.
        -- rewrite Hc, Hfs. done.
Qed.

Lemma verdict_not_opened (p : string) :
  verdict [Ev OpOpen p false] = inl (OSError OpOpen p).
Proof. reflexivity. Qed.

Lemma verdict_complete (p : string) (cs : list string) (b : bool) :
  verdict (Ev OpOpen p true :: (ok_write p <$> cs) ++ [Ev OpClose p b])
  = if b then inr tt else inl (OSError OpClose p).
Proof.
  unfold verdict. change (Ev OpOpen p true :: ?l) with ([Ev OpOpen p true] ++ l).
  rewrite !failures_app, failures_ok_writes. by destruct b.
Qed.

Lemma verdict_cut (p : string) (cs : list string) (c : string) (b : bool) :
  verdict (Ev OpOpen p true :: (ok_write p <$> cs)
             ++ [Ev (OpWrite c) p false; Ev OpClose p b])
  = if b then inl (OSError (OpWrite c) p) else inl (OSError OpClose p).
Proof.
  unfold verdict. change (Ev OpOpen p true :: ?l) with ([Ev OpOpen p true] ++ l).
  rewrite !failures_app, failures_ok_writes. by destruct b.
Qed.

(** One [with] block, whatever fails in it. *)
Lemma session_blocks (p : string) (obj : pyobj) (w : world) :
  let out := with_open fault p (fun outfile => json_dump fault obj outfile) w in
  ∃ evs n,
    trace out.1 = trace w ++ evs ∧
    block p (Json.iterencode obj) evs n ∧
    files out.1 !! p = content_after (files w !! p) (Json.iterencode obj) n ∧
    out.2 = verdict evs.
Proof.
  cbv zeta. unfold with_open, open_w, json_dump, bind, fp_close, fileop_do, ret.
  destruct (fault (length (trace w))) eqn:Hf.
  { exists [Ev OpOpen p false], None. simpl. split_and!; try done. constructor. }
  set (w1 := World _ _).
  assert (Hp1 : files w1 !! p = Some "") by (subst w1; simpl; apply lookup_insert_eq).
  assert (Ht1 : trace w1 = trace w ++ [Ev OpOpen p true]) by done.
  clearbody w1.
  destruct (write_chunks_shape p (Json.iterencode obj) w1)
    as [(Hr & Ht & Hc)|(k & c & Hk & Hr & Ht & Hc)];
    destruct (write_chunks fault p (Json.iterencode obj) w1) as [w2 r2];
    simpl in Hr, Ht, Hc; subst r2; rewrite Hp1 in Hc; simpl in Hc;
    rewrite string_app_nil_l in Hc.
  - exists (Ev OpOpen p true :: (ok_write p <$> Json.iterencode obj)
              ++ [Ev OpClose p (negb (fault (length (trace w2))))]),
      (Some (length (Json.iterencode obj))).
    rewrite verdict_complete. simpl. rewrite firstn_all.
    destruct (fault (length (trace w2))); simpl;
      (split; [rewrite Ht, Ht1; by rewrite <- !app_assoc|]);
      (split; [constructor|]); (split; [exact Hc|reflexivity]).
  - exists (Ev OpOpen p true :: (ok_write p <$> take k (Json.iterencode obj))
              ++ [Ev (OpWrite c) p false;
                  Ev OpClose p (negb (fault (length (trace w2))))]),
      (Some k).
    rewrite verdict_cut. simpl.
    destruct (fault (length (trace w2))); simpl;
      (split; [rewrite Ht, Ht1; by rewrite <- !app_assoc|]);
      (split; [by constructor|]); (split; [exact Hc|reflexivity]).
Qed.

End Blocks.

Section RunBlocks.
Variable fault : nat -> bool.

Lemma block_ended_well (p : string) (obj : pyobj) (evs : list event) (n : option nat) :
  block p (Json.iterencode obj) evs n → verdict evs = inr tt →
  evs = session_trace p obj ∧ n = Some (length (Json.iterencode obj)).
Proof.
  intros [|b|k c b Hk] Hv.
  - discriminate Hv.
  - rewrite verdict_complete in Hv. destruct b; [|discriminate Hv]. by split.
  - rewrite verdict_cut in Hv. destruct b; discriminate Hv.
Qed.

(** The trace of a run is the block of the small file, followed, when that
    block ended well, by the block of the large file; the files hold what
    the blocks wrote, and the result of the run is the verdict of the
    trace. *)
Lemma run_blocks (fs : gmap string string) :
  ∃ b1 n1 b2 n2,
    trace (run fault fs).1 = b1 ++ b2 ∧
    block small_file (Json.iterencode (PyDict sdata)) b1 n1 ∧
    ((b2 = [] ∧ n2 = None) ∨
     (b1 = session_trace small_file (PyDict sdata) ∧
      block large_file (Json.iterencode (PyDict ldata)) b2 n2)) ∧
    files (run fault fs).1 !! small_file
      = content_after (fs !! small_file) (Json.iterencode (PyDict sdata)) n1 ∧
    files (run fault fs).1 !! large_file
      = content_after (fs !! large_file) (Json.iterencode (PyDict ldata)) n2 ∧
    (run fault fs).2 = verdict (trace (run fault fs).1).
Proof.
  unfold run, make_json, bind.
  change "small_file.json" with small_file.
  change "large_file.json" with large_file.
  pose proof (session_blocks fault small_file (PyDict sdata) (World fs [])) as H1.
  pose proof (session_spec fault small_file (PyDict sdata) (World fs [])) as G1.
  cbv zeta in H1, G1.
  destruct (with_open fault small_file _ (World fs [])) as [w1 r1].
  destruct H1 as (b1 & n1 & Ht1 & Hb1 & Hc1 & Hr1).
  destruct G1 as (_ & _ & _ & _ & Hq1 & _).
  cbn [fst snd trace files app] in Ht1, Hc1, Hr1, Hq1.
  destruct r1 as [x|[]].
  { exists b1, n1, [], None. cbn [fst snd]. rewrite app_nil_r.
    split; [exact Ht1|]. split; [exact Hb1|]. split; [left; split; reflexivity|].
    split; [exact Hc1|]. split; [apply Hq1; discriminate|].
    rewrite Ht1. exact Hr1. }
  destruct (block_ended_well _ _ _ _ Hb1 (eq_sym Hr1)) as [Hfull Hn1].
  pose proof (session_blocks fault large_file (PyDict ldata) w1) as H2.
  pose proof (session_spec fault large_file (PyDict ldata) w1) as G2.
  cbv zeta in H2, G2.
  destruct (with_open fault large_file _ w1) as [w2 r2].
  destruct H2 as (b2 & n2 & Ht2 & Hb2 & Hc2 & Hr2).
  destruct G2 as (_ & _ & _ & _ & Hq2 & _).
  cbn [fst snd] in Ht2, Hc2, Hr2, Hq2 |- *.
  exists b1, n1, b2, n2.
  split; [rewrite Ht2, Ht1; reflexivity|]. split; [exact Hb1|].
  split; [right; split; [exact Hfull|exact Hb2]|].
  split; [rewrite Hq2 by discriminate; exact Hc1|].
  split; [rewrite Hc2, (Hq1 large_file) by discriminate; reflexivity|].
  rewrite Hr2, Ht2, Ht1. unfold verdict. rewrite failures_app.
  rewrite (failures_succeeded b1); [reflexivity|].
  rewrite Hfull. apply session_trace_succeeded.
Qed.

Lemma count_events_app (f : event -> bool) (l1 l2 : list event) :
  count_events f (l1 ++ l2) = (count_events f l1 + count_events f l2)%nat.
Proof. induction l1 as [|e l1 IH]; simpl; [done|]. rewrite IH. lia. Qed.

Lemma count_ok_writes (f : event -> bool) (p : string) (cs : list string) :
  (∀ c, f (ok_write p c) = false) → count_events f (ok_write p <$> cs) = 0%nat.
Proof.
  intros Hf. induction cs as [|c cs IH]; [done|].
  change (ok_write p <$> c :: cs) with (ok_write p c :: (ok_write p <$> cs)).
  cbn [count_events]. by rewrite Hf, IH.
Qed.

(** In a block, the file is closed as often as it was opened. *)
Lemma block_opens_closes (p q : string) (cs : list string) (evs : list event) n :
  block q cs evs n →
  count_events (is_open_ok p) evs = count_events (is_close p) evs.
Proof.
  intros [|b|k c b Hk]; [reflexivity| |];
    change (Ev OpOpen q true :: ?l) with ([Ev OpOpen q true] ++ l);
    rewrite !count_events_app, !count_ok_writes by done;
    simpl; unfold is_open_ok, is_close; simpl; lia.
Qed.

End RunBlocks.

(** ** Further properties of the run *)

(** X1: a run touches no file but [small_file.json] and [large_file.json]:
    whatever fails, the rest of the file system is after the run what it
    was before it. *)
Theorem other_files_untouched (fault : nat -> bool) (fs : gmap string string) :
  delete "small_file.json" (delete "large_file.json" (files (run fault fs).1))
  = delete "small_file.json" (delete "large_file.json" fs).
Proof.
  apply map_eq. intros q.
  destruct (decide (q = "small_file.json")) as [->|Hs].
  { by rewrite !lookup_delete_eq. }
  rewrite !(lookup_delete_ne _ "small_file.json") by done.
  destruct (decide (q = "large_file.json")) as [->|Hl].
  { by rewrite !lookup_delete_eq. }
  rewrite !(lookup_delete_ne _ "large_file.json") by done.
  apply run_other_files; assumption.
Qed.

Lemma verdict_session_trace (path : string) (obj : pyobj) :
  verdict (session_trace path obj) = inr tt.
Proof. unfold session_trace. apply verdict_complete. Qed.

(** X2: the file operations of a run are those of the two [with] blocks, in
    order.  The trace is a block of the small file, followed by nothing
    when that block did not end well (a failed open, a failed write or a
    failed close), and by a block of the large file when it did; in a block
    the file is opened first, the chunks of the document are written in
    their order without gap or repetition, no write follows a failed one,
    and the close comes last. *)
Theorem trace_is_blocks (fault : nat -> bool) (fs : gmap string string) :
  ∃ b1 n1 b2 n2,
    trace (run fault fs).1 = b1 ++ b2 ∧
    block "small_file.json" (Json.iterencode (PyDict sdata)) b1 n1 ∧
    ((b1 ≠ session_trace "small_file.json" (PyDict sdata) ∧ b2 = []) ∨
     (b1 = session_trace "small_file.json" (PyDict sdata) ∧
      block "large_file.json" (Json.iterencode (PyDict ldata)) b2 n2)).
Proof.
  destruct (run_blocks fault fs) as (b1 & n1 & b2 & n2 & Ht & Hb1 & Hb2 & _ & _ & Hr).
  exists b1, n1, b2, n2. split; [exact Ht|]. split; [exact Hb1|].
  destruct Hb2 as [[-> _]|[Hfull Hb2]]; [left|right; split; [exact Hfull|exact Hb2]].
  split; [|reflexivity]. intros Hfull.
  rewrite app_nil_r in Ht. rewrite Ht, Hfull in Hr.
  rewrite verdict_session_trace in Hr.
  pose proof (run_outcome fault fs) as Hout. rewrite Hr in Hout.
  inversion Hout as [| |w Ht' Hs Hl Hw].
  rewrite Ht, Hfull in Ht'. apply (f_equal length) in Ht'.
  rewrite length_app, !length_session_trace in Ht'. unfold session_ops in Ht'. lia.
Qed.

(** X3: no file is left open.  In every run, also one that an exception
    ends, each path is closed exactly as many times as it was successfully
    opened. *)
Theorem opened_files_are_closed
    (fault : nat -> bool) (fs : gmap string string) (path : string) :
  count_events (is_open_ok path) (trace (run fault fs).1)
  = count_events (is_close path) (trace (run fault fs).1).
Proof.
  destruct (run_blocks fault fs) as (b1 & n1 & b2 & n2 & Ht & Hb1 & Hb2 & _).
  rewrite Ht, !count_events_app.
  rewrite (block_opens_closes path _ _ _ _ Hb1).
  destruct Hb2 as [[-> _]|[_ Hb2]]; [reflexivity|].
  by rewrite (block_opens_closes path _ _ _ _ Hb2).
Qed.

(** X4: a run that fails can leave a file cut short, but never anything
    else: after every run each of the two files is either what it was
    before the run, or holds a prefix of the full text of its document. *)
Theorem partial_output_is_a_prefix (fault : nat -> bool) (fs : gmap string string) :
  (files (run fault fs).1 !! "small_file.json" = fs !! "small_file.json" ∨
   ∃ s rest, files (run fault fs).1 !! "small_file.json" = Some s ∧
             Json.dumps (PyDict sdata) = s +:+ rest) ∧
  (files (run fault fs).1 !! "large_file.json" = fs !! "large_file.json" ∨
   ∃ s rest, files (run fault fs).1 !! "large_file.json" = Some s ∧
             Json.dumps (PyDict ldata) = s +:+ rest).
Proof.
  destruct (run_blocks fault fs) as (b1 & n1 & b2 & n2 & _ & _ & _ & Hs & Hl & _).
  split.
  - destruct n1 as [k|]; [right|left; exact Hs].
    eexists _, _. split; [exact Hs|]. apply join_take_drop.
  - destruct n2 as [k|]; [right|left; exact Hl].
    eexists _, _. split; [exact Hl|]. apply join_take_drop.
Qed.

(** X5: nothing is rolled back.  When an operation on [large_file.json]
    fails, the run ends with an exception and [small_file.json] stays
    complete. *)
Theorem large_failure_keeps_small (fault : nat -> bool) (fs : gmap string string) :
  failed_on "large_file.json" (trace (run fault fs).1) = true →
  (∃ x, (run fault fs).2 = inl x) ∧
  files (run fault fs).1 !! "small_file.json" = Some (Json.dumps (PyDict sdata)).
Proof.
  change "large_file.json" with large_file.
  destruct (run_outcome fault fs)
    as [w e Hopen Hon Hab Hfs|w e evs Ht Hopen Hon Hab Hfs|w Ht Hs Hl]; intros Hfail.
  - exfalso.
    rewrite (failed_on_elsewhere large_file small_file (trace w)) in Hfail;
      [discriminate Hfail|discriminate|exact Hon].
  - split; [eexists; reflexivity|exact Hfs].
  - exfalso. rewrite Ht, failed_on_app in Hfail.
    rewrite !failed_on_succeeded in Hfail by apply session_trace_succeeded.
    discriminate Hfail.
Qed.

Lemma large_failure_keeps_small_witness :
  failed_on "large_file.json" (trace (run (fun k => Nat.eqb k 507) ∅).1) = true ∧
  (∃ x, (run (fun k => Nat.eqb k 507) ∅).2 = inl x) ∧
  files (run (fun k => Nat.eqb k 507) ∅).1 !! "small_file.json"
    = Some (Json.dumps (PyDict sdata)).
Proof.
  split; [reflexivity|].
  apply (large_failure_keeps_small (fun k => Nat.eqb k 507)). reflexivity.
Defined.

(** X7: the result of a run is decided by the operation that failed last:
    the run ends normally when no operation failed, and otherwise the
    exception that leaves the script is that of the last failed operation
    (the close, when a write and then the close of the file fail). *)
Theorem result_is_last_failure (fault : nat -> bool) (fs : gmap string string) :
  (run fault fs).2 = verdict (trace (run fault fs).1) ∧
  (∀ x, (run fault fs).2 = inl x →
        ∃ e, last (failures (trace (run fault fs).1)) = Some e ∧
             x = OSError (ev_op e) (ev_path e)).
Proof.
  destruct (run_blocks fault fs) as (_ & _ & _ & _ & _ & _ & _ & _ & _ & Hr).
  split; [exact Hr|]. intros x Hx. rewrite Hx in Hr. unfold verdict in Hr.
  destruct (last (failures (trace (run fault fs).1))) as [e|]; [|discriminate Hr].
  exists e. split; [reflexivity|]. injection Hr as ->. reflexivity.
Qed.

(** ** Further properties of the data and of its encoding *)



Lemma number_char_printable (c : ascii) : is_number_char c = true → printable c = true.
Proof.
  unfold is_number_char, printable. generalize (N_of_ascii c). intros n.
  rewrite orb_true_iff, !andb_true_iff, N.eqb_eq, !N.leb_le. lia.
Qed.

Lemma sep_join_printable (zs : list Z) :
  all_chars printable (Spec.sep_join ", " (Json.intstr <$> zs)) = true.
Proof.
  induction zs as [|z zs IH]; [done|].
  assert (Hz : all_chars printable (Json.intstr z) = true)
    by (eapply all_chars_impl; [apply number_char_printable|apply intstr_number_chars]).
  destruct zs as [|z' zs]; [exact Hz|].
  change (Spec.sep_join ", " (Json.intstr <$> z :: z' :: zs))
    with (Json.intstr z +:+ ", " +:+ Spec.sep_join ", " (Json.intstr <$> z' :: zs)).
  by rewrite !all_chars_app, Hz, IH.
Qed.

(** A [with] block that ends well has done all its operations and left the
    whole text of its document in the file. *)
Lemma block_completed (fault : nat -> bool) (path : string) (obj : pyobj) (w : world) :
  (with_open fault path (fun outfile => json_dump fault obj outfile) w).2 = inr tt →
  trace (with_open fault path (fun outfile => json_dump fault obj outfile) w).1
    = trace w ++ session_trace path obj ∧
  files (with_open fault path (fun outfile => json_dump fault obj outfile) w).1 !! path
    = Some (Json.dumps obj).
Proof.
  intros Hr. pose proof (session_spec fault path obj w) as H. cbv zeta in H.
  destruct H as (evs & Ht & _ & _ & _ & Hm). rewrite Hr in Hm.
  destruct Hm as [-> Hf]. split; [exact Ht|exact Hf].
Qed.

(** X8: the text a [with] block around [json.dump] leaves in its file, for
    a document with the one field [numbers] and integers that
    [int.__repr__] prints (none, negative ones), is plain printable ASCII:
    every character is between [' '] and ['~'], so the file has no control
    character, no newline and no byte outside ASCII. *)
Theorem written_text_is_printable
    (fault : nat -> bool) (path : string) (zs : list Z) (w : world) :
  forallb repr_allowed zs = true →
  (with_open fault path
     (fun outfile => json_dump fault (numbers_document zs) outfile) w).2 = inr tt →
  ∃ text,
    files (with_open fault path
             (fun outfile => json_dump fault (numbers_document zs) outfile) w).1
      !! path = Some text ∧
    all_chars printable text = true.
Proof.
  intros _ Hr. destruct (block_completed fault path _ w Hr) as [_ Hf].
  eexists. split; [exact Hf|].
  rewrite numbers_document_eq, dumps_fixture. unfold Spec.compact_text.
  rewrite !string_app_cons, !string_app_nil_l. cbn [all_chars].
  by rewrite !all_chars_app, sep_join_printable.
Qed.

Lemma written_text_is_printable_witness :
  forallb repr_allowed [-1; 0; 12] = true ∧
  (with_open (fun _ => false) "numbers.json"
     (fun outfile => json_dump (fun _ => false) (numbers_document [-1; 0; 12]) outfile)
     (World ∅ [])).2 = inr tt ∧
  ∃ text,
    files (with_open (fun _ => false) "numbers.json"
             (fun outfile => json_dump (fun _ => false) (numbers_document [-1; 0; 12]) outfile)
             (World ∅ [])).1
      !! "numbers.json" = Some text ∧
    all_chars printable text = true.
Proof.
  split; [reflexivity|]. split; [reflexivity|].
  apply (written_text_is_printable (fun _ => false) "numbers.json" [-1; 0; 12] (World ∅ []));
    reflexivity.
Defined.

(** X9: the loop [for i in range(n): lst.append(i)] keeps what the list
    held and puts [0, 1, ..., n-1] after it, in this order; when [n <= 0]
    it leaves the list as it is. *)
Theorem loop_appends_range (n : Z) (lst : list pyobj) :
  Py.len (Py.for_range_append n lst) = Py.len lst + Z.max 0 n ∧
  (∀ i : Z, 0 <= i < Py.len lst →
     Py.list_getitem (Py.for_range_append n lst) i = Py.list_getitem lst i) ∧
  (∀ i : Z, 0 <= i < n →
     Py.list_getitem (Py.for_range_append n lst) (Py.len lst + i) = Some (PyInt i)).
Proof.
  unfold Py.for_range_append, Py.range. rewrite fold_append_fmap.
  unfold Py.len, Py.list_getitem. split; [|split].
  - rewrite length_app, length_fmap, length_seqZ. lia.
  - intros i Hi. rewrite !decide_True by lia. apply lookup_app_l. lia.
  - intros i Hi. rewrite decide_True by lia.
    rewrite lookup_app_r by lia.
    replace (Z.to_nat (Z.of_nat (length lst) + i) - length lst)%nat
      with (Z.to_nat i) by lia.
    rewrite list_lookup_fmap, lookup_seqZ_lt by lia. simpl. f_equal. f_equal. lia.
Qed.

(** X10: the encoding loses nothing.  The text a [with] block around
    [json.dump] leaves in its file, for a document with the one field
    [numbers] and integers that [int.__repr__] prints, reads back as the
    same integers in the same order; so two such documents that leave the
    same text hold the same integers. *)
Theorem written_text_reads_back
    (fault : nat -> bool) (path : string) (zs : list Z) (w : world) :
  forallb repr_allowed zs = true →
  (with_open fault path
     (fun outfile => json_dump fault (numbers_document zs) outfile) w).2 = inr tt →
  ∃ text,
    files (with_open fault path
             (fun outfile => json_dump fault (numbers_document zs) outfile) w).1
      !! path = Some text ∧
    Reader.read_numbers text = Some zs.
Proof.
  intros _ Hr. destruct (block_completed fault path _ w Hr) as [_ Hf].
  eexists. split; [exact Hf|].
  rewrite numbers_document_eq, dumps_fixture. apply read_compact_text.
Qed.

Lemma written_text_reads_back_witness :
  forallb repr_allowed [-1; 0; 12] = true ∧
  (with_open (fun _ => false) "numbers.json"
     (fun outfile => json_dump (fun _ => false) (numbers_document [-1; 0; 12]) outfile)
     (World ∅ [])).2 = inr tt ∧
  ∃ text,
    files (with_open (fun _ => false) "numbers.json"
             (fun outfile => json_dump (fun _ => false) (numbers_document [-1; 0; 12]) outfile)
             (World ∅ [])).1
      !! "numbers.json" = Some text ∧
    Reader.read_numbers text = Some [-1; 0; 12].
Proof.
  split; [reflexivity|]. split; [reflexivity|].
  apply (written_text_reads_back (fun _ => false) "numbers.json" [-1; 0; 12] (World ∅ []));
    reflexivity.
Defined.

(** X11: a [with] block around [json.dump] that ends well, for a document
    with the one field [numbers] and [n] integers that [int.__repr__]
    prints, has called [write] on its file [n + 5] times: once for each
    number and five times more (the braces, the key, the colon and the
    closing bracket, or the empty list). *)
Theorem one_write_per_number
    (fault : nat -> bool) (path : string) (zs : list Z) (w : world) :
  forallb repr_allowed zs = true →
  (with_open fault path
     (fun outfile => json_dump fault (numbers_document zs) outfile) w).2 = inr tt →
  count_events (is_write path)
    (trace (with_open fault path
              (fun outfile => json_dump fault (numbers_document zs) outfile) w).1)
  = (count_events (is_write path) (trace w) + (length zs + 5))%nat.
Proof.
  intros _ Hr. destruct (block_completed fault path _ w Hr) as [Ht _].
  rewrite Ht, count_events_app. f_equal.
  assert (Hlen : length (Json.iterencode (numbers_document zs)) = (length zs + 5)%nat).
  { rewrite numbers_document_eq. destruct zs as [|z zs]; [reflexivity|].
    change (Json.iterencode (PyDict [("numbers", PyList (PyInt <$> z :: zs))]))
      with (["{"; Json.encoder "numbers"; Json.key_separator]
              ++ Json.iterencode_list_items Json.iterencode true (PyInt <$> z :: zs)
              ++ ["}"]).
    rewrite !length_app, length_list_items. simpl. lia. }
  rewrite <- Hlen. unfold session_trace.
  generalize (Json.iterencode (numbers_document zs)). intros cs.
  change (Ev OpOpen path true :: ?l) with ([Ev OpOpen path true] ++ l).
  rewrite !count_events_app. simpl.
  induction cs as [|c cs IH]; [reflexivity|].
  change (ok_write path <$> c :: cs) with (ok_write path c :: (ok_write path <$> cs)).
  cbn [count_events length]. unfold is_write at 1. simpl.
  rewrite bool_decide_eq_true_2 by done. lia.
Qed.

Lemma one_write_per_number_witness :
  forallb repr_allowed [-1; 0; 12] = true ∧
  (with_open (fun _ => false) "numbers.json"
     (fun outfile => json_dump (fun _ => false) (numbers_document [-1; 0; 12]) outfile)
     (World ∅ [])).2 = inr tt ∧
  count_events (is_write "numbers.json")
    (trace (with_open (fun _ => false) "numbers.json"
              (fun outfile => json_dump (fun _ => false) (numbers_document [-1; 0; 12]) outfile)
              (World ∅ [])).1)
  = (count_events (is_write "numbers.json") (trace (World ∅ []))
     + (length [(-1)%Z; 0%Z; 12%Z] + 5))%nat.
Proof.
  split; [reflexivity|]. split; [reflexivity|].
  apply (one_write_per_number (fun _ => false) "numbers.json" [-1; 0; 12] (World ∅ []));
    reflexivity.
Defined.

(** X12: the truncation is not undone.  Once [small_file.json] has been
    opened, what it held before the run is gone, also when a later
    operation fails: the file holds a prefix of the text of its document
    (the empty text, when the first write fails). *)
Theorem open_truncates_for_good (fault : nat -> bool) (fs : gmap string string) :
  fault 0%nat = false →
  ∃ s rest,
    files (run fault fs).1 !! "small_file.json" = Some s ∧
    Json.dumps (PyDict sdata) = s +:+ rest.
Proof.
  intros H0.
  destruct (run_blocks fault fs) as (b1 & n1 & b2 & n2 & Ht & Hb1 & _ & Hs & _).
  pose proof (run_faithful fault fs) as Hf. rewrite Ht in Hf.
  destruct n1 as [k|].
  - eexists _, _. split; [exact Hs|]. apply join_take_drop.
  - exfalso. inversion Hb1 as [Hb| |]. rewrite <- Hb in Hf.
    specialize (Hf 0%nat (Ev OpOpen small_file false) eq_refl).
    simpl in Hf. rewrite H0 in Hf. discriminate Hf.
Qed.

Lemma open_truncates_for_good_witness :
  (fun k => Nat.eqb k 1) 0%nat = false ∧
  ∃ s rest,
    files (run (fun k => Nat.eqb k 1) {["small_file.json" := "stale"]}).1
      !! "small_file.json" = Some s ∧
    Json.dumps (PyDict sdata) = s +:+ rest.
Proof.
  split; [reflexivity|].
  apply (open_truncates_for_good (fun k => Nat.eqb k 1)). reflexivity.
Defined.

(** A run whose first write fails leaves the small file empty. *)
Example run_first_write_fails :
  files (run (fun k => Nat.eqb k 1) {["small_file.json" := "stale"]}).1
    !! "small_file.json" = Some "".
Proof. reflexivity. Qed.
